(** * Patient statistics per disease type: a shallow embedding of
    [calcular_estadisticas_pacientes] (src/1001010.py)

    The Python function folds a list of patient records (dictionaries) into a
    per-category counter and metric sum, then turns every accumulator into a
    summary.  The embedding keeps the shape of the source: records are finite
    maps from field names to Python values, the accumulator is the
    [defaultdict] keyed by category, exceptions are an explicit outcome, and
    floats are IEEE binary64 values of the Standard Library's [SpecFloat].

    What the embedding fixes about Python:
    - a field holds [None], a [bool], an [int], a [float], a [str] or a
      [datetime.date]; all of them are hashable;
    - a string is a sequence of characters with code points below 256;
    - [float(s)] on a string is a parameter, [float_of_str]: the function
      only needs to know whether it fails;
    - dictionaries are compared as Python compares them, by their entries and
      whatever the insertion order. *)

From Stdlib Require Import ZArith QArith String Ascii List Lia SpecFloat.
From stdpp Require Import base option countable gmap strings list fin_maps.

Local Open Scope Z_scope.

(** ** Calendar dates ([datetime.date]) *)

Module Fecha.

Record date := mkdate { year : Z; month : Z; day : Z }.

#[global] Instance date_eq_dec : EqDecision date.
Proof. solve_decision. Defined.

(** [datetime.date] orders dates by (year, month, day). *)
Definition leb (a b : date) : bool :=
  (year a <? year b)
  || ((year a =? year b)
      && ((month a <? month b)
          || ((month a =? month b) && (day a <=? day b)))).

Definition ltb (a b : date) : bool := negb (leb b a).

Definition is_leap (y : Z) : bool :=
  (y mod 4 =? 0) && (negb (y mod 100 =? 0) || (y mod 400 =? 0)).

Definition days_in_month (y m : Z) : Z :=
  if m =? 2 then (if is_leap y then 29 else 28)
  else if (m =? 4) || (m =? 6) || (m =? 9) || (m =? 11) then 30
  else 31.

(** The constructor [datetime.date(y, m, d)]: [None] stands for the
    [ValueError] it raises outside MINYEAR..MAXYEAR, 1..12, 1..dim. *)
Definition make (y m d : Z) : option date :=
  if (1 <=? y) && (y <=? 9999) && (1 <=? m) && (m <=? 12)
     && (1 <=? d) && (d <=? days_in_month y m)
  then Some (mkdate y m d) else None.

(** *** [datetime.datetime.strptime(s, "%Y-%m-%d").date()]

    CPython compiles the format to the regular expression
    [(?P<Y>\d\d\d\d)-(?P<m>1[0-2]|0[1-9]|[1-9])-(?P<d>3[0-1]|[1-2]\d|0[1-9]|[1-9]| [1-9])],
    matches it at the start of the string, rejects the string when text
    remains after the match, and builds the date.  Every failure is a
    [ValueError], modelled by [None].  Strings are sequences of characters
    with code points below 256, where [\d] is exactly '0'..'9'. *)

Definition code (c : ascii) : Z := Z.of_N (N_of_ascii c).
Definition between (lo hi : Z) (c : ascii) : bool :=
  (lo <=? code c) && (code c <=? hi).
Definition is_digit (c : ascii) : bool := between 48 57 c.
Definition digit (c : ascii) : Z := code c - 48.

(** The group [m] followed by the literal '-'. *)
Definition regex_m (s : string) : option (Z * string) :=
  match s with
  | String c1 (String c2 (String "-" r)) =>
      if (code c1 =? 49) && between 48 50 c2 then Some (10 + digit c2, r)
      else if (code c1 =? 48) && between 49 57 c2 then Some (digit c2, r)
      else None
  | String c1 (String "-" r) =>
      if between 49 57 c1 then Some (digit c1, r) else None
  | _ => None
  end.

(** The group [d]: the first alternative that matches wins, whatever
    follows it. *)
Definition regex_d (s : string) : option (Z * string) :=
  let one :=
    match s with
    | String c r => if between 49 57 c then Some (digit c, r) else None
    | EmptyString => None
    end in
  match s with
  | String c1 (String c2 r) =>
      if (code c1 =? 51) && between 48 49 c2 then Some (30 + digit c2, r)
      else if between 49 50 c1 && is_digit c2 then Some (10 * digit c1 + digit c2, r)
      else if (code c1 =? 48) && between 49 57 c2 then Some (digit c2, r)
      else if between 49 57 c1 then Some (digit c1, String c2 r)
      else if (code c1 =? 32) && between 49 57 c2 then Some (digit c2, r)
      else None
  | _ => one
  end.

Definition strptime (s : string) : option date :=
  match s with
  | String y1 (String y2 (String y3 (String y4 (String "-" r)))) =>
      if is_digit y1 && is_digit y2 && is_digit y3 && is_digit y4 then
        match regex_m r with
        | Some (m, r') =>
            match regex_d r' with
            | Some (d, EmptyString) =>
                make (1000 * digit y1 + 100 * digit y2 + 10 * digit y3 + digit y4) m d
            | _ => None
            end
        | None => None
        end
      else None
  | _ => None
  end.

End Fecha.

Abbreviation date := Fecha.date.

(** ** Python floats: IEEE 754 binary64 *)

Module F64.

Definition prec : Z := 53.
Definition emax : Z := 1024.

Definition add : spec_float -> spec_float -> spec_float := SFadd prec emax.
Definition div : spec_float -> spec_float -> spec_float := SFdiv prec emax.

(** The nearest binary64 value of an integer, ties to even. *)
Definition of_Z (z : Z) : spec_float := binary_normalize prec emax z 0 false.

Definition zero : spec_float := S754_zero false.

Definition is_zero (f : spec_float) : bool :=
  match f with S754_zero _ => true | _ => false end.

(** The exact value of a finite float, as a rational. *)
Definition to_Q (f : spec_float) : option Q :=
  match f with
  | S754_zero _ => Some (0 # 1)
  | S754_finite s m e =>
      let n := if s then Z.neg m else Z.pos m in
      Some (if 0 <=? e then (n * 2 ^ e) # 1 else n # Z.to_pos (2 ^ (- e)))
  | _ => None
  end.

(** The integer a float is equal to, when there is one. *)
Definition to_Z (f : spec_float) : option Z :=
  match f with
  | S754_zero _ => Some 0
  | S754_finite s m e =>
      let n := if s then Z.neg m else Z.pos m in
      if 0 <=? e then Some (n * 2 ^ e)
      else if Z.pos m mod 2 ^ (- e) =? 0 then Some (n / 2 ^ (- e))
      else None
  | _ => None
  end.

End F64.

(** ** Python values and exceptions *)

(** The values a record field can hold: [None], [bool], [int], [float],
    [str] and [datetime.date]. *)
Inductive value :=
  | VNone
  | VBool (b : bool)
  | VInt (z : Z)
  | VFloat (f : spec_float)
  | VStr (s : string)
  | VDate (d : date).

Inductive exn := TypeError | ValueError | OverflowError | ZeroDivisionError.

(** The outcome of a computation that may raise. *)
Inductive outcome (A : Type) :=
  | Ok (a : A)
  | Raise (e : exn).
Arguments Ok {A} a.
Arguments Raise {A} e.

#[global] Instance outcome_ret : MRet outcome := fun A a => Ok a.
#[global] Instance outcome_bind : MBind outcome := fun A B k c =>
  match c with Ok a => k a | Raise e => Raise e end.

#[global] Instance spec_float_eq_dec : EqDecision spec_float.
Proof. solve_decision. Defined.
#[global] Instance value_eq_dec : EqDecision value.
Proof. solve_decision. Defined.
#[global] Instance exn_eq_dec : EqDecision exn.
Proof. solve_decision. Defined.
#[global] Instance outcome_eq_dec {A : Type} `{EqDecision A} : EqDecision (outcome A).
Proof. solve_decision. Defined.

Module ValueCode.

Definition float_code : Type := bool + bool + unit + bool * positive * Z.
Definition code : Type := unit + bool + Z + float_code + string + Z * Z * Z.

Definition of_float (f : spec_float) : float_code :=
  match f with
  | S754_zero s => inl (inl (inl s))
  | S754_infinity s => inl (inl (inr s))
  | S754_nan => inl (inr tt)
  | S754_finite s m e => inr (s, m, e)
  end.

Definition to_float (c : float_code) : spec_float :=
  match c with
  | inl (inl (inl s)) => S754_zero s
  | inl (inl (inr s)) => S754_infinity s
  | inl (inr _) => S754_nan
  | inr (s, m, e) => S754_finite s m e
  end.

Definition of_value (v : value) : code :=
  match v with
  | VNone => inl (inl (inl (inl (inl tt))))
  | VBool b => inl (inl (inl (inl (inr b))))
  | VInt z => inl (inl (inl (inr z)))
  | VFloat f => inl (inl (inr (of_float f)))
  | VStr s => inl (inr s)
  | VDate d => inr (Fecha.year d, Fecha.month d, Fecha.day d)
  end.

Definition to_value (c : code) : value :=
  match c with
  | inl (inl (inl (inl (inl _)))) => VNone
  | inl (inl (inl (inl (inr b)))) => VBool b
  | inl (inl (inl (inr z))) => VInt z
  | inl (inl (inr f)) => VFloat (to_float f)
  | inl (inr s) => VStr s
  | inr (y, m, d) => VDate (Fecha.mkdate y m d)
  end.

End ValueCode.

#[global] Instance value_countable : Countable value.
Proof.
  refine (inj_countable' ValueCode.of_value ValueCode.to_value _).
  intros [| | |[]| |[]]; reflexivity.
Defined.

(** ** Built-in operations used by the function *)

(** Truth value of an object ([not tipo], [if campo_metrica]). *)
Definition truthy (v : value) : bool :=
  match v with
  | VNone => false
  | VBool b => b
  | VInt z => negb (z =? 0)
  | VFloat f => negb (F64.is_zero f)
  | VStr s => negb (String.eqb s "")
  | VDate _ => true
  end.

(** Dictionary keys are compared with [==] and hashed accordingly: [True],
    [1] and [1.0] are one key.  [clave] sends a value to the representative
    of its class; floats are canonical binary64 values, so two floats that
    are not integers are equal exactly when they are the same value (a NaN
    is taken to be one shared object). *)
Definition clave (v : value) : value :=
  match v with
  | VBool b => VInt (if b then 1 else 0)
  | VFloat f => match F64.to_Z f with Some z => VInt z | None => VFloat f end
  | _ => v
  end.

(** [float(n)] for an [int]: [OverflowError] when [n] rounds beyond the
    largest finite binary64. *)
Definition int_to_float (n : Z) : outcome spec_float :=
  match F64.of_Z n with
  | S754_infinity _ => Raise OverflowError
  | f => Ok f
  end.

(** [x / n] for a [float] and an [int]. *)
Definition float_truediv_int (x : spec_float) (n : Z) : outcome spec_float :=
  y ← int_to_float n;
  if F64.is_zero y then Raise ZeroDivisionError else Ok (F64.div x y).

Record acumulador := mk_acumulador { count : Z; sum_metric : spec_float }.

Record estadistica := mk_estadistica { cantidad : Z; promedio : option spec_float }.

#[global] Instance acumulador_eq_dec : EqDecision acumulador.
Proof. solve_decision. Defined.
#[global] Instance estadistica_eq_dec : EqDecision estadistica.
Proof. solve_decision. Defined.

(** [registro.get(campo)] *)
Definition dict_get (registro : gmap string value) (campo : string) : value :=
  default VNone (registro !! campo).

(** The factory of the [defaultdict] and the lookup that inserts it. *)
Definition acumulador_inicial : acumulador := mk_acumulador 0 F64.zero.

Definition entrada (resultados : gmap value acumulador) (tipo : value) : acumulador :=
  default acumulador_inicial (resultados !! clave tipo).

(** [resultados[tipo]["count"] += 1] *)
Definition incrementar (tipo : value) (resultados : gmap value acumulador)
  : gmap value acumulador :=
  let data := entrada resultados tipo in
  <[clave tipo := mk_acumulador (count data + 1) (sum_metric data)]> resultados.

(** [resultados[tipo]["sum_metric"] += valor] *)
Definition sumar (tipo : value) (valor : spec_float) (resultados : gmap value acumulador)
  : gmap value acumulador :=
  let data := entrada resultados tipo in
  <[clave tipo := mk_acumulador (count data) (F64.add (sum_metric data) valor)]> resultados.

(** [if campo_metrica]: the field name when it is given and not empty. *)
Definition campo_solicitado (campo_metrica : option string) : option string :=
  match campo_metrica with
  | Some c => if String.eqb c "" then None else Some c
  | None => None
  end.

Section Aggregator.

(** [float(s)] for a string, CPython's numeric-literal parser: [None]
    stands for the [ValueError] of a string that is not a float literal. *)
Variable float_of_str : string -> option spec_float.

(** [float(v)] *)
Definition py_float (v : value) : outcome spec_float :=
  match v with
  | VNone => Raise TypeError
  | VBool b => Ok (F64.of_Z (if b then 1 else 0))
  | VInt z => int_to_float z
  | VFloat f => Ok f
  | VStr s => match float_of_str s with Some f => Ok f | None => Raise ValueError end
  | VDate _ => Raise TypeError
  end.

(** Lines 35-41: the admission date, a string being parsed; [None] is the
    [continue] of the [except ValueError] branch. *)
Definition normalizar_fecha (fecha_ingreso : value) : option value :=
  match fecha_ingreso with
  | VStr s =>
      match Fecha.strptime s with
      | Some d => Some (VDate d)
      | None => None
      end
  | v => Some v
  end.

(** Line 44: [fecha_ingreso is None or not (fecha_inicio <= fecha_ingreso
    <= fecha_fin)]; comparing a date with anything but a date raises. *)
Definition fuera_de_intervalo (fecha_inicio fecha_fin : date) (fecha_ingreso : value)
  : outcome bool :=
  match fecha_ingreso with
  | VNone => Ok true
  | VDate d => Ok (negb (Fecha.leb fecha_inicio d && Fecha.leb d fecha_fin))
  | _ => Raise TypeError
  end.

(** Lines 55-61: the metric of one counted record. *)
Definition acumular_metrica (campo_metrica : option string) (tipo : value)
    (registro : gmap string value) (resultados : gmap value acumulador)
  : outcome (gmap value acumulador) :=
  match campo_solicitado campo_metrica with
  | Some c =>
      match registro !! c with
      | Some v =>
          match py_float v with
          | Ok valor => Ok (sumar tipo valor resultados)
          | Raise ValueError | Raise TypeError => Ok resultados
          | Raise e => Raise e
          end
      | None => Ok resultados
      end
  | None => Ok resultados
  end.

(** Lines 34-61: the body of the loop; a [continue] returns the
    accumulator as it is. *)
Definition procesar_registro (fecha_inicio fecha_fin : date)
    (campo_metrica : option string)
    (resultados : gmap value acumulador) (registro : gmap string value)
  : outcome (gmap value acumulador) :=
  match normalizar_fecha (dict_get registro "fechaIngreso") with
  | None => Ok resultados
  | Some fecha_ingreso =>
      fuera ← fuera_de_intervalo fecha_inicio fecha_fin fecha_ingreso;
      if (fuera : bool) then Ok resultados
      else
        let tipo := dict_get registro "tipoEnfermedad" in
        if negb (truthy tipo) then Ok resultados
        else acumular_metrica campo_metrica tipo registro (incrementar tipo resultados)
  end.

(** Line 33: the loop over the records. *)
Fixpoint bucle (fecha_inicio fecha_fin : date) (campo_metrica : option string)
    (resultados : gmap value acumulador) (registros : list (gmap string value))
  : outcome (gmap value acumulador) :=
  match registros with
  | [] => Ok resultados
  | registro :: resto =>
      resultados' ← procesar_registro fecha_inicio fecha_fin campo_metrica resultados registro;
      bucle fecha_inicio fecha_fin campo_metrica resultados' resto
  end.

(** Lines 66-70: the summary of one category. *)
Definition resumir (campo_metrica : option string) (data : acumulador)
  : outcome estadistica :=
  match campo_solicitado campo_metrica with
  | Some _ =>
      promedio ← (if 0 <? count data
                  then float_truediv_int (sum_metric data) (count data)
                  else Ok F64.zero);
      Ok (mk_estadistica (count data) (Some promedio))
  | None => Ok (mk_estadistica (count data) None)
  end.

(** Lines 64-70: the final dictionary, one entry per accumulator.  The
    summaries do not depend on one another, so the order in which the entries
    are visited does not show in the result. *)
Definition preparar (campo_metrica : option string) (resultados : gmap value acumulador)
  : outcome (gmap value estadistica) :=
  map_fold
    (fun tipo data acc =>
       estadisticas ← acc;
       e ← resumir campo_metrica data;
       Ok (<[tipo := e]> estadisticas))
    (Ok ∅) resultados.

Definition calcular_estadisticas_pacientes
    (registros : list (gmap string value)) (fecha_inicio fecha_fin : date)
    (campo_metrica : option string)
  : outcome (gmap value estadistica) :=
  resultados ← bucle fecha_inicio fecha_fin campo_metrica ∅ registros;
  preparar campo_metrica resultados.

End Aggregator.

(** ** The counted records of a category

    The vocabulary of the specification, defined on its own terms: which
    records count, under which category, and which float each contributes. *)

(** A value that is neither [None], a string nor a date. *)
Definition otro_tipo (v : value) : bool :=
  match v with
  | VBool _ | VInt _ | VFloat _ => true
  | _ => false
  end.

Section Counted.

Variable float_of_str : string -> option spec_float.
Variables fecha_inicio fecha_fin : date.
Variable campo_metrica : option string.

(** The admission date of a record: a native date, or the date a string
    parses to. *)
Definition fecha_de (registro : gmap string value) : option date :=
  match dict_get registro "fechaIngreso" with
  | VDate d => Some d
  | VStr s => Fecha.strptime s
  | _ => None
  end.

Definition en_intervalo (d : date) : bool :=
  Fecha.leb fecha_inicio d && Fecha.leb d fecha_fin.

(** The category a record is counted under, when it is counted. *)
Definition categoria_contada (registro : gmap string value) : option value :=
  match fecha_de registro with
  | Some d =>
      if en_intervalo d && truthy (dict_get registro "tipoEnfermedad")
      then Some (clave (dict_get registro "tipoEnfermedad"))
      else None
  | None => None
  end.

(** The float a record contributes to the sum of the requested metric. *)
Definition contribucion (registro : gmap string value) : option spec_float :=
  match campo_solicitado campo_metrica with
  | Some c =>
      match registro !! c with
      | Some v => match py_float float_of_str v with Ok x => Some x | Raise _ => None end
      | None => None
      end
  | None => None
  end.

(** The counted records of category [k], in input order. *)
Definition registros_de (k : value) (registros : list (gmap string value))
  : list (gmap string value) :=
  filter (fun r => categoria_contada r = Some k) registros.

(** The running sum of their contributions, from [0.0]. *)
Definition suma_metrica (registros : list (gmap string value)) : spec_float :=
  foldl F64.add F64.zero (omap contribucion registros).

(** One accumulator update: the count goes up by one, the sum by the
    contribution when there is one. *)
Definition aplicar (k : value) (x : option spec_float) (resultados : gmap value acumulador)
  : gmap value acumulador :=
  let data := default acumulador_inicial (resultados !! k) in
  <[k := mk_acumulador (count data + 1)
           (match x with Some v => F64.add (sum_metric data) v | None => sum_metric data end)]>
    resultados.

Definition efecto (registro : gmap string value) (resultados : gmap value acumulador)
  : gmap value acumulador :=
  match categoria_contada registro with
  | Some k => aplicar k (contribucion registro) resultados
  | None => resultados
  end.

(** A record is processed when its step returns, with this effect. *)
Definition se_procesa (r : gmap string value) : Prop :=
  forall res,
    procesar_registro float_of_str fecha_inicio fecha_fin campo_metrica res r
    = Ok (efecto r res).

(** The accumulator of a category after one more of its records. *)
Definition acumular_uno (data : acumulador) (r : gmap string value) : acumulador :=
  mk_acumulador (count data + 1)
    (match contribucion r with
     | Some v => F64.add (sum_metric data) v
     | None => sum_metric data
     end).

(** The requested metric of a record is not an [int] too large for a
    float. *)
Definition sin_desborde (r : gmap string value) : Prop :=
  forall c v, campo_solicitado campo_metrica = Some c -> r !! c = Some v ->
              py_float float_of_str v <> Raise OverflowError.

End Counted.

(** ** Example inputs *)

(** [float(s)] on strings of ASCII digits, every other string rejected: a
    fragment of CPython's parser, enough to run the examples below, none of
    which passes it a string with a sign, a point, an exponent or blanks. *)
Fixpoint digits_value (s : string) (acc : Z) : option Z :=
  match s with
  | EmptyString => Some acc
  | String c r =>
      if Fecha.is_digit c then digits_value r (10 * acc + Fecha.digit c) else None
  end.

Definition float_of_digits (s : string) : option spec_float :=
  match s with
  | EmptyString => None
  | _ => F64.of_Z <$> digits_value s 0
  end.

(** A float denotes a rational exactly. *)
Definition exactly (f : spec_float) (q : Q) : Prop :=
  match F64.to_Q f with Some x => Qeq x q | None => False end.

Definition f64_2_5 : spec_float := S754_finite false 5629499534213120 (-51).
Definition f64_5_5 : spec_float := S754_finite false 6192449487634432 (-50).
Definition f64_9_0 : spec_float := S754_finite false 5066549580791808 (-49).

Definition enero_2025 : date * date := (Fecha.mkdate 2025 1 1, Fecha.mkdate 2025 1 31).

(** Categories A (metric 5 and 6) and B (metric 9). *)
Definition registros_AB : list (gmap string value) :=
  [ list_to_map [("fechaIngreso", VStr "2025-01-10"); ("tipoEnfermedad", VStr "A");
                 ("tiempoHospitalizacion", VInt 5)];
    list_to_map [("fechaIngreso", VDate (Fecha.mkdate 2025 1 12)); ("tipoEnfermedad", VStr "B");
                 ("tiempoHospitalizacion", VInt 9)];
    list_to_map [("fechaIngreso", VStr "2025-01-20"); ("tipoEnfermedad", VStr "A");
                 ("tiempoHospitalizacion", VInt 6)] ].

Definition estadisticas_AB : gmap value estadistica :=
  {[ VStr "A" := mk_estadistica 2 (Some f64_5_5);
     VStr "B" := mk_estadistica 1 (Some f64_9_0) ]}.

Definition metrica : string := "tiempoHospitalizacion".

(** The data and the call of the usage example that closes the source
    file. *)
Definition datos_pacientes : list (gmap string value) :=
  [ list_to_map [("ID", VInt 1); ("fechaIngreso", VStr "2025-01-10");
                 ("tipoEnfermedad", VStr "VIH"); ("tiempoHospitalizacion", VInt 5)];
    list_to_map [("ID", VInt 2); ("fechaIngreso", VStr "2025-01-15");
                 ("tipoEnfermedad", VStr "HCV"); ("tiempoHospitalizacion", VInt 3)];
    list_to_map [("ID", VInt 3); ("fechaIngreso", VStr "2025-01-20");
                 ("tipoEnfermedad", VStr "HBV"); ("tiempoHospitalizacion", VInt 4)];
    list_to_map [("ID", VInt 4); ("fechaIngreso", VStr "2025-01-25");
                 ("tipoEnfermedad", VStr "VIH"); ("tiempoHospitalizacion", VInt 6)];
    list_to_map [("ID", VInt 5); ("fechaIngreso", VStr "2025-02-05");
                 ("tipoEnfermedad", VStr "HCV"); ("tiempoHospitalizacion", VInt 2)] ].

Definition f64_3_0 : spec_float := S754_finite false 6755399441055744 (-51).
Definition f64_4_0 : spec_float := S754_finite false 4503599627370496 (-50).

Definition registro_fecha_entera : gmap string value :=
  list_to_map [("fechaIngreso", VInt 20250110); ("tipoEnfermedad", VStr "A")].

Definition registro_sin_fecha : gmap string value :=
  list_to_map [("tipoEnfermedad", VStr "A")].

Definition registro_fecha_mala : gmap string value :=
  list_to_map [("fechaIngreso", VStr "not-a-date"); ("tipoEnfermedad", VStr "A")].

Definition registro_fecha_cadena : gmap string value :=
  list_to_map [("fechaIngreso", VStr "2025-01-10"); ("tipoEnfermedad", VStr "A");
               ("tiempoHospitalizacion", VInt 5)].

Definition registro_sin_tipo : gmap string value :=
  list_to_map [("fechaIngreso", VStr "2025-01-10"); ("tiempoHospitalizacion", VInt 5)].

Definition registro_metrica_enorme : gmap string value :=
  list_to_map [("fechaIngreso", VStr "2025-01-10"); ("tipoEnfermedad", VStr "A");
               ("tiempoHospitalizacion", VInt (2 ^ 1024))].

Definition registro_NA : gmap string value :=
  list_to_map [("fechaIngreso", VStr "2025-01-11"); ("tipoEnfermedad", VStr "A");
               ("tiempoHospitalizacion", VStr "N/A")].

(** A range whose start lies after its end, and a record admitted on the
    start date. *)
Definition intervalo_invertido : date * date :=
  (Fecha.mkdate 2025 2 1, Fecha.mkdate 2025 1 1).

Definition registro_en_inicio : gmap string value :=
  list_to_map [("fechaIngreso", VDate (Fecha.mkdate 2025 2 1)); ("tipoEnfermedad", VStr "A")].


Definition registro_despues : gmap string value :=
  list_to_map [("fechaIngreso", VDate (Fecha.mkdate 2025 2 1)); ("tipoEnfermedad", VStr "A")].

(** Three records of one category whose metric values do not add up
    exactly in binary64, in two orders. *)
Definition registro_con (n : Z) : gmap string value :=
  list_to_map [("fechaIngreso", VStr "2025-01-10"); ("tipoEnfermedad", VStr "A");
               ("tiempoHospitalizacion", VInt n)].

Definition registros_orden_1 : list (gmap string value) :=
  [registro_con (10 ^ 16); registro_con 1; registro_con (- 10 ^ 16)].

Definition registros_orden_2 : list (gmap string value) :=
  [registro_con (10 ^ 16); registro_con (- 10 ^ 16); registro_con 1].

Definition f64_un_tercio : spec_float := S754_finite false 6004799503160661 (-54).

(** A record whose metric is a NaN, and one with a field of no use. *)
Definition registro_nan : gmap string value :=
  list_to_map [("fechaIngreso", VStr "2025-01-12"); ("tipoEnfermedad", VStr "A");
               ("tiempoHospitalizacion", VFloat S754_nan)].

Definition febrero_2025 : date * date := (Fecha.mkdate 2025 1 1, Fecha.mkdate 2025 2 28).

Definition uso_2025 : date * date := (Fecha.mkdate 2025 1 10, Fecha.mkdate 2025 2 4).

(** ** Reading a result *)

(** The count of a category in a result, [0] when it is not emitted. *)
Definition cuenta (est : gmap value estadistica) (k : value) : Z :=
  default 0 (cantidad <$> est !! k).

(** The sum of the counts of a result. *)
Definition total (est : gmap value estadistica) : Z :=
  map_fold (fun _ e n => cantidad e + n) 0 est.

(** The records of the input that are counted, under whatever category. *)
Definition contados (fecha_inicio fecha_fin : date) (registros : list (gmap string value))
  : list (gmap string value) :=
  filter (fun r => is_Some (categoria_contada fecha_inicio fecha_fin r)) registros.

(** The date field of a record is absent, a string or a date. *)
Definition fecha_admisible (r : gmap string value) : Prop :=
  otro_tipo (dict_get r "fechaIngreso") = false.

(** A closed equation or disequation between values with decidable
    equality, settled by evaluation. *)
Ltac evaluate := apply (bool_decide_unpack _); vm_compute; exact I.

(** [sin_desborde] for a concrete record: its metric field is looked up
    and converted. *)
Ltac sin_desborde_concreto :=
  let c := fresh "c" in let v := fresh "v" in
  let Hc := fresh "Hc" in let Hv := fresh "Hv" in
  intros c v Hc Hv; vm_compute in Hc; injection Hc as <-;
  vm_compute in Hv; first [discriminate Hv | injection Hv as <-; vm_compute; discriminate].

(** ** Facts about binary64 rounding *)

Module F64Facts.

Lemma digits2_pos_bounds (p : positive) :
  2 ^ (Z.pos (digits2_pos p) - 1) <= Z.pos p < 2 ^ Z.pos (digits2_pos p).
Proof.
  induction p as [p IH | p IH |]; cbn [digits2_pos].
  - rewrite Pos2Z.inj_succ, Z.pow_succ_r by lia.
    replace (Z.succ (Z.pos (digits2_pos p)) - 1) with (Z.succ (Z.pos (digits2_pos p) - 1)) by lia.
    rewrite Z.pow_succ_r by lia. lia.
  - rewrite Pos2Z.inj_succ, Z.pow_succ_r by lia.
    replace (Z.succ (Z.pos (digits2_pos p)) - 1) with (Z.succ (Z.pos (digits2_pos p) - 1)) by lia.
    rewrite Z.pow_succ_r by lia. lia.
  - cbn. lia.
Qed.

Lemma shr_1_m (mrs : shr_record) :
  0 <= shr_m mrs -> shr_m (shr_1 mrs) = shr_m mrs / 2.
Proof.
  destruct mrs as [m r s]; cbn [shr_m]; intros Hm.
  destruct m as [| [p | p |] | p]; cbn [shr_1 shr_m]; try lia; try reflexivity.
  - apply Z.div_unique with (r := 1); lia.
  - apply Z.div_unique with (r := 0); lia.
Qed.

Lemma iter_shr_1_m (p : positive) : forall mrs : shr_record,
  0 <= shr_m mrs -> shr_m (SpecFloat.iter_pos shr_1 p mrs) = shr_m mrs / 2 ^ Z.pos p.
Proof.
  induction p as [p IH | p IH |]; intros mrs Hm; cbn [SpecFloat.iter_pos].
  - assert (H1 : 0 <= shr_m (shr_1 mrs)).
    { rewrite shr_1_m by done. apply Z.div_pos; lia. }
    assert (H2 : 0 <= shr_m (SpecFloat.iter_pos shr_1 p (shr_1 mrs))).
    { rewrite IH by done. apply Z.div_pos; lia. }
    rewrite (IH _ H2), (IH _ H1), shr_1_m by done.
    rewrite !Z.div_div by lia. f_equal.
    replace (Z.pos p~1) with (1 + Z.pos p + Z.pos p) by lia.
    rewrite !Z.pow_add_r by lia. change (2 ^ 1) with 2. lia.
  - assert (H2 : 0 <= shr_m (SpecFloat.iter_pos shr_1 p mrs)).
    { rewrite IH by done. apply Z.div_pos; lia. }
    rewrite (IH _ H2), (IH _ Hm).
    rewrite !Z.div_div by lia. f_equal.
    replace (Z.pos p~0) with (Z.pos p + Z.pos p) by lia.
    rewrite !Z.pow_add_r by lia. lia.
  - rewrite shr_1_m by done. reflexivity.
Qed.

(** Shifting right by fewer bits than the number has keeps it positive. *)
Lemma shr_fexp_pos (m e : Z) (l : location) :
  0 < m -> emin F64.prec F64.emax <= e ->
  0 < shr_m (fst (shr_fexp F64.prec F64.emax m e l))
  /\ e <= snd (shr_fexp F64.prec F64.emax m e l).
Proof.
  intros Hm He. unfold shr_fexp, shr.
  assert (Hrec : shr_m (shr_record_of_loc m l) = m) by (destruct l as [|[]]; reflexivity).
  destruct m as [| p |]; try lia. cbn [Zdigits2].
  pose proof (digits2_pos_bounds p) as [Hlo _].
  unfold fexp, emin, F64.prec, F64.emax in *.
  destruct (Z.max (Z.pos (digits2_pos p) + e - 53) (3 - 1024 - 53) - e) as [| n | n] eqn:Hn;
    cbn [fst snd]; rewrite ?Hrec; try lia.
  rewrite iter_shr_1_m by (rewrite Hrec; lia). rewrite Hrec. split; [|lia].
  apply Z.div_str_pos. split; [lia|].
  apply Z.le_trans with (2 ^ (Z.pos (digits2_pos p) - 1)); [|done].
  apply Z.pow_le_mono_r; lia.
Qed.

Lemma round_nearest_even_ge (m : Z) (l : location) : m <= round_nearest_even m l.
Proof. destruct l as [|[]]; cbn; try lia. destruct (Z.even m); lia. Qed.

Lemma binary_round_aux_pos (sx : bool) (mx ex : Z) (lx : location) :
  0 < mx -> emin F64.prec F64.emax <= ex ->
  (exists m e, binary_round_aux F64.prec F64.emax sx mx ex lx = S754_finite sx m e)
  \/ binary_round_aux F64.prec F64.emax sx mx ex lx = S754_infinity sx.
Proof.
  intros Hm He. unfold binary_round_aux.
  pose proof (shr_fexp_pos mx ex lx Hm He) as [H1 H1'].
  destruct (shr_fexp F64.prec F64.emax mx ex lx) as [mrs' e']; cbn [fst snd] in *.
  pose proof (round_nearest_even_ge (shr_m mrs') (loc_of_shr_record mrs')) as Hr.
  pose proof (shr_fexp_pos (round_nearest_even (shr_m mrs') (loc_of_shr_record mrs')) e' loc_Exact)
    as [H2 _]; [lia | lia |].
  destruct (shr_fexp F64.prec F64.emax _ e' loc_Exact) as [mrs'' e'']; cbn [fst snd] in *.
  destruct (shr_m mrs'') as [| m |]; try lia.
  destruct (e'' <=? F64.emax - F64.prec); eauto.
Qed.

Lemma of_Z_pos (n : Z) :
  0 < n ->
  (exists m e, F64.of_Z n = S754_finite false m e) \/ F64.of_Z n = S754_infinity false.
Proof.
  intros Hn. destruct n as [| p |]; try lia.
  unfold F64.of_Z, binary_normalize, binary_round, shl_align.
  destruct (fexp F64.prec F64.emax (Z.pos (digits2_pos p) + 0) - 0) as [| d | d] eqn:Hd;
    apply binary_round_aux_pos; try lia;
    try (unfold emin, F64.prec, F64.emax; lia).
  unfold fexp in *. lia.
Qed.

End F64Facts.

(** ** Consequences for the built-ins *)

Lemma int_to_float_pos (n : Z) (y : spec_float) :
  0 < n -> int_to_float n = Ok y -> exists m e, y = S754_finite false m e.
Proof.
  intros Hn. unfold int_to_float.
  destruct (F64Facts.of_Z_pos n Hn) as [(m & e & ->) | ->]; [|discriminate].
  intros [= <-]. eauto.
Qed.

Lemma float_truediv_int_pos (x : spec_float) (n : Z) :
  0 < n ->
  float_truediv_int x n = (y ← int_to_float n; Ok (F64.div x y)).
Proof.
  intros Hn. unfold float_truediv_int.
  destruct (int_to_float n) as [y | e] eqn:Hy; [|reflexivity].
  destruct (int_to_float_pos n y Hn Hy) as (m & e & ->). reflexivity.
Qed.

Lemma div_zero_pos (n : Z) (y : spec_float) :
  0 < n -> int_to_float n = Ok y -> F64.div F64.zero y = F64.zero.
Proof.
  intros Hn Hy. destruct (int_to_float_pos n y Hn Hy) as (m & e & ->). reflexivity.
Qed.

(** ** The loop body, record by record *)

Section LoopFacts.

Variable float_of_str : string -> option spec_float.
Variables fecha_inicio fecha_fin : date.
Variable campo_metrica : option string.

Local Abbreviation procesar :=
  (procesar_registro float_of_str fecha_inicio fecha_fin campo_metrica).
Local Abbreviation efecto_de := (efecto float_of_str fecha_inicio fecha_fin campo_metrica).
Local Abbreviation contribucion_de := (contribucion float_of_str campo_metrica).
Local Abbreviation categoria := (categoria_contada fecha_inicio fecha_fin).
Local Abbreviation procesado :=
  (se_procesa float_of_str fecha_inicio fecha_fin campo_metrica).
Local Abbreviation uno := (acumular_uno float_of_str campo_metrica).

Lemma incrementar_aplicar (tipo : value) (res : gmap value acumulador) :
  incrementar tipo res = aplicar (clave tipo) None res.
Proof. reflexivity. Qed.

Lemma sumar_incrementar (tipo : value) (v : spec_float) (res : gmap value acumulador) :
  sumar tipo v (incrementar tipo res) = aplicar (clave tipo) (Some v) res.
Proof.
  unfold sumar, incrementar, entrada, aplicar.
  rewrite lookup_insert_eq, insert_insert_eq. reflexivity.
Qed.

Lemma py_float_raises (v : value) (e : exn) :
  py_float float_of_str v = Raise e ->
  e = TypeError \/ e = ValueError \/ e = OverflowError.
Proof.
  destruct v as [| b | z | f | s | d]; cbn; try (intros [= <-]; auto); try discriminate.
  - unfold int_to_float. destruct (F64.of_Z z); intros [= <-]; auto.
  - destruct (float_of_str s); intros [= <-]; auto.
Qed.

(** Whether the metric of a counted record raises does not depend on the
    accumulator; when it does not, the record has the effect [aplicar]. *)
Lemma acumular_metrica_cases (tipo : value) (r : gmap string value) :
  (forall res, acumular_metrica float_of_str campo_metrica tipo r (incrementar tipo res)
               = Ok (aplicar (clave tipo) (contribucion_de r) res))
  \/ (forall res, acumular_metrica float_of_str campo_metrica tipo r res = Raise OverflowError).
Proof.
  unfold acumular_metrica, contribucion.
  destruct (campo_solicitado campo_metrica) as [c|]; [|by left].
  destruct (r !! c) as [v|]; [|by left].
  destruct (py_float float_of_str v) as [x | e] eqn:Hv.
  - left. intros res. by rewrite sumar_incrementar.
  - destruct (py_float_raises v e Hv) as [-> | [-> | ->]]; [by left | by left | by right].
Qed.

Lemma procesar_cases (r : gmap string value) :
  (forall res, procesar res r = Ok (efecto_de r res))
  \/ (exists e, (e = TypeError \/ e = OverflowError) /\ forall res, procesar res r = Raise e).
Proof.
  unfold procesar_registro, efecto, categoria_contada, fecha_de, en_intervalo,
    normalizar_fecha.
  destruct (dict_get r "fechaIngreso") as [| b | z | f | s | d] eqn:Hf; cbn.
  - by left.
  - right. exists TypeError. auto.
  - right. exists TypeError. auto.
  - right. exists TypeError. auto.
  - destruct (Fecha.strptime s) as [d|]; [|by left]. cbn.
    destruct (Fecha.leb fecha_inicio d && Fecha.leb d fecha_fin); cbn; [|by left].
    destruct (truthy (dict_get r "tipoEnfermedad")); cbn; [|by left].
    destruct (acumular_metrica_cases (dict_get r "tipoEnfermedad") r) as [H | H].
    + left. intros res. apply H.
    + right. exists OverflowError. split; [auto|]. intros res. apply H.
  - destruct (Fecha.leb fecha_inicio d && Fecha.leb d fecha_fin); cbn; [|by left].
    destruct (truthy (dict_get r "tipoEnfermedad")); cbn; [|by left].
    destruct (acumular_metrica_cases (dict_get r "tipoEnfermedad") r) as [H | H].
    + left. intros res. apply H.
    + right. exists OverflowError. split; [auto|]. intros res. apply H.
Qed.

Lemma procesar_ok (r : gmap string value) (res res' : gmap value acumulador) :
  procesar res r = Ok res' -> procesado r /\ res' = efecto_de r res.
Proof.
  intros H. destruct (procesar_cases r) as [Hok | (e & _ & Hr)].
  - split; [done|]. rewrite Hok in H. by injection H.
  - rewrite Hr in H. discriminate.
Qed.

Lemma procesar_raise (r : gmap string value) (res : gmap value acumulador) (e : exn) :
  procesar res r = Raise e ->
  (e = TypeError \/ e = OverflowError) /\ forall res2, procesar res2 r = Raise e.
Proof.
  intros H. destruct (procesar_cases r) as [Hok | (e' & He & Hr)].
  - rewrite Hok in H. discriminate.
  - rewrite Hr in H. injection H as <-. auto.
Qed.

(** The loop body in one equation. *)
Lemma procesar_unfold (res : gmap value acumulador) (r : gmap string value) :
  procesar res r =
  if otro_tipo (dict_get r "fechaIngreso") then Raise TypeError
  else match categoria r with
       | None => Ok res
       | Some _ =>
           acumular_metrica float_of_str campo_metrica (dict_get r "tipoEnfermedad") r
             (incrementar (dict_get r "tipoEnfermedad") res)
       end.
Proof.
  unfold procesar_registro, categoria_contada, fecha_de, en_intervalo, normalizar_fecha.
  destruct (dict_get r "fechaIngreso") as [| b | z | f | s | d]; cbn; try reflexivity.
  - destruct (Fecha.strptime s) as [d|]; [|reflexivity]. cbn.
    destruct (Fecha.leb fecha_inicio d && Fecha.leb d fecha_fin); cbn; [|reflexivity].
    by destruct (truthy (dict_get r "tipoEnfermedad")).
  - destruct (Fecha.leb fecha_inicio d && Fecha.leb d fecha_fin); cbn; [|reflexivity].
    by destruct (truthy (dict_get r "tipoEnfermedad")).
Qed.

Lemma fecha_de_otro_tipo (r : gmap string value) (d : date) :
  fecha_de r = Some d -> otro_tipo (dict_get r "fechaIngreso") = false.
Proof. unfold fecha_de. by destruct (dict_get r "fechaIngreso"). Qed.

Lemma procesar_continue (r : gmap string value) :
  otro_tipo (dict_get r "fechaIngreso") = false -> categoria r = None ->
  forall res, procesar res r = Ok res.
Proof. intros H1 H2 res. by rewrite procesar_unfold, H1, H2. Qed.

(** *** The loop *)

Local Abbreviation bucle_de :=
  (bucle float_of_str fecha_inicio fecha_fin campo_metrica).

Lemma bucle_app (res : gmap value acumulador) (l1 l2 : list (gmap string value)) :
  bucle_de res (l1 ++ l2) = (res' ← bucle_de res l1; bucle_de res' l2).
Proof.
  revert res. induction l1 as [| r l1 IH]; intros res; cbn; [reflexivity|].
  destruct (procesar res r) as [res1 | e]; cbn; [apply IH | reflexivity].
Qed.

Lemma bucle_ok (l : list (gmap string value)) : forall res res' : gmap value acumulador,
  bucle_de res l = Ok res' ->
  Forall procesado l /\ res' = foldl (fun acc r => efecto_de r acc) res l.
Proof.
  induction l as [| r l IH]; intros res res'; cbn.
  - intros [= <-]. auto.
  - destruct (procesar res r) as [res1 | e] eqn:Hr; cbn; [|discriminate].
    apply procesar_ok in Hr as [Hp ->]. intros H. apply IH in H as [Hl ->]. auto.
Qed.

Lemma bucle_procesados (l : list (gmap string value)) : forall res : gmap value acumulador,
  Forall procesado l ->
  bucle_de res l = Ok (foldl (fun acc r => efecto_de r acc) res l).
Proof.
  induction l as [| r l IH]; intros res Hl; cbn; [reflexivity|].
  inversion Hl as [| ? ? Hr Hl']; subst. rewrite Hr. cbn. by apply IH.
Qed.

Lemma bucle_raise (l : list (gmap string value)) : forall (res : gmap value acumulador) (e : exn),
  bucle_de res l = Raise e -> e = TypeError \/ e = OverflowError.
Proof.
  induction l as [| r l IH]; intros res e; cbn; [discriminate|].
  destruct (procesar res r) as [res1 | e1] eqn:Hr; cbn.
  - apply IH.
  - intros [= <-]. by apply procesar_raise in Hr as [? _].
Qed.

(** *** What the loop leaves in the accumulator *)

Lemma lookup_efecto (r : gmap string value) (res : gmap value acumulador) (k : value) :
  efecto_de r res !! k =
  if decide (categoria r = Some k)
  then Some (uno (default acumulador_inicial (res !! k)) r)
  else res !! k.
Proof.
  unfold efecto. destruct (categoria r) as [k0|] eqn:Hk.
  - unfold aplicar. case_decide as Hd.
    + injection Hd as ->. by rewrite lookup_insert_eq.
    + rewrite lookup_insert_ne; [done | congruence].
  - by case_decide.
Qed.

Lemma lookup_foldl_efecto (l : list (gmap string value)) (k : value) :
  forall res : gmap value acumulador,
  foldl (fun acc r => efecto_de r acc) res l !! k =
  foldl (fun o r => Some (uno (default acumulador_inicial o) r)) (res !! k)
    (registros_de fecha_inicio fecha_fin k l).
Proof.
  induction l as [| r l IH]; intros res; [reflexivity|].
  cbn [foldl]. rewrite IH, lookup_efecto. unfold registros_de.
  rewrite filter_cons. by case_decide.
Qed.

Lemma foldl_acumular_uno (rs : list (gmap string value)) : forall o : option acumulador,
  rs <> [] ->
  foldl (fun o r => Some (uno (default acumulador_inicial o) r)) o rs =
  Some (mk_acumulador
          (count (default acumulador_inicial o) + Z.of_nat (length rs))
          (foldl F64.add (sum_metric (default acumulador_inicial o)) (omap contribucion_de rs))).
Proof.
  induction rs as [| r rs IH]; intros o Hne; [done|].
  cbn [foldl]. destruct rs as [| r' rs].
  - cbn. unfold acumular_uno. destruct (contribucion_de r); reflexivity.
  - rewrite IH by done. unfold acumular_uno. cbn [default id count sum_metric].
    do 2 f_equal.
    + rewrite (length_cons r). lia.
    + cbn [omap list_omap]. destruct (contribucion_de r); reflexivity.
Qed.

(** The accumulator after the loop, category by category: the number of
    counted records and the running sum of their contributions. *)
Lemma bucle_lookup (l : list (gmap string value)) (res : gmap value acumulador) (k : value) :
  bucle_de ∅ l = Ok res ->
  res !! k =
  match registros_de fecha_inicio fecha_fin k l with
  | [] => None
  | rs => Some (mk_acumulador (Z.of_nat (length rs))
                  (suma_metrica float_of_str campo_metrica rs))
  end.
Proof.
  intros H. apply bucle_ok in H as [_ ->].
  rewrite lookup_foldl_efecto, lookup_empty.
  destruct (registros_de fecha_inicio fecha_fin k l) as [| r rs] eqn:Hrs; [reflexivity|].
  rewrite foldl_acumular_uno by done. reflexivity.
Qed.

End LoopFacts.

(** ** The final dictionary *)

Section FinalFacts.

Variable campo_metrica : option string.

(** Every accumulator becomes one entry under the same key; the only way
    to fail is the failure of one summary. *)
Lemma preparar_spec (res : gmap value acumulador) :
  match preparar campo_metrica res with
  | Ok est =>
      forall k,
        match res !! k with
        | Some d => exists e, resumir campo_metrica d = Ok e /\ est !! k = Some e
        | None => est !! k = None
        end
  | Raise e => exists k d, res !! k = Some d /\ resumir campo_metrica d = Raise e
  end.
Proof.
  unfold preparar.
  apply (map_fold_weak_ind (fun (r : outcome (gmap value estadistica)) m =>
    match r with
    | Ok est =>
        forall k,
          match m !! k with
          | Some d => exists e, resumir campo_metrica d = Ok e /\ est !! k = Some e
          | None => est !! k = None
          end
    | Raise e => exists k d, m !! k = Some d /\ resumir campo_metrica d = Raise e
    end)).
  - intros k. by rewrite !lookup_empty.
  - intros i x m r Hi IH. destruct r as [est | e]; cbn.
    + destruct (resumir campo_metrica x) as [ex | e] eqn:Hx; cbn.
      * intros k. destruct (decide (i = k)) as [-> | Hne].
        -- rewrite !lookup_insert_eq. eauto.
        -- rewrite !lookup_insert_ne by done. apply IH.
      * exists i, x. by rewrite lookup_insert_eq.
    + destruct IH as (k & d & Hk & Hd). exists k, d. split; [|done].
      rewrite lookup_insert_ne; [done | congruence].
Qed.

Lemma resumir_pos (d : acumulador) :
  0 < count d ->
  resumir campo_metrica d =
  match campo_solicitado campo_metrica with
  | Some _ =>
      y ← int_to_float (count d);
      Ok (mk_estadistica (count d) (Some (F64.div (sum_metric d) y)))
  | None => Ok (mk_estadistica (count d) None)
  end.
Proof.
  intros Hd. unfold resumir. destruct (campo_solicitado campo_metrica); [|reflexivity].
  apply Z.ltb_lt in Hd as Hd'. rewrite Hd', float_truediv_int_pos by done.
  by destruct (int_to_float (count d)).
Qed.

Lemma resumir_raise (d : acumulador) (e : exn) :
  0 < count d -> resumir campo_metrica d = Raise e -> e = OverflowError.
Proof.
  intros Hd. rewrite resumir_pos by done.
  destruct (campo_solicitado campo_metrica); [|discriminate].
  unfold int_to_float. destruct (F64.of_Z (count d)); cbn; congruence.
Qed.

End FinalFacts.

(** ** The counts of a result *)

Section Counts.

Variable float_of_str : string -> option spec_float.
Variables fecha_inicio fecha_fin : date.
Variable campo_metrica : option string.

Lemma resumir_cantidad (d : acumulador) (e : estadistica) :
  0 < count d -> resumir campo_metrica d = Ok e ->
  cantidad e = count d /\ (campo_solicitado campo_metrica = None -> promedio e = None).
Proof.
  intros Hd. rewrite resumir_pos by done.
  destruct (campo_solicitado campo_metrica).
  - destruct (int_to_float (count d)); cbn; [|discriminate]. by intros [= <-].
  - by intros [= <-].
Qed.

(** Whether a positive count can be summarised depends on the count
    alone. *)
Lemma resumir_same_count (d d' : acumulador) (e : estadistica) :
  0 < count d -> count d' = count d -> resumir campo_metrica d = Ok e ->
  exists e', resumir campo_metrica d' = Ok e'.
Proof.
  intros Hd Hc. rewrite !resumir_pos by lia. rewrite Hc.
  destruct (campo_solicitado campo_metrica); [|eauto].
  destruct (int_to_float (count d)); cbn; [eauto | discriminate].
Qed.

(** The count of a category in the result is the number of its counted
    records, and only categories with a counted record are emitted. *)
Lemma calcular_cantidad (l : list (gmap string value)) (est : gmap value estadistica) (k : value) :
  calcular_estadisticas_pacientes float_of_str l fecha_inicio fecha_fin campo_metrica = Ok est ->
  cantidad <$> est !! k =
  match registros_de fecha_inicio fecha_fin k l with
  | [] => None
  | rs => Some (Z.of_nat (length rs))
  end.
Proof.
  unfold calcular_estadisticas_pacientes.
  destruct (bucle float_of_str fecha_inicio fecha_fin campo_metrica ∅ l) as [res | e] eqn:Hb;
    cbn; [|discriminate].
  intros Hest. pose proof (preparar_spec campo_metrica res) as Hp. rewrite Hest in Hp.
  specialize (Hp k). rewrite (bucle_lookup _ _ _ _ _ _ k Hb) in Hp.
  destruct (registros_de fecha_inicio fecha_fin k l) as [| r rs]; [by rewrite Hp|].
  destruct Hp as (e & He & ->). cbn.
  apply resumir_cantidad in He as [-> _]; [done | cbn [count length]; lia].
Qed.

End Counts.

(** ** One record inside a list *)

Section OneRecord.

Variable float_of_str : string -> option spec_float.
Variables fecha_inicio fecha_fin : date.
Variable campo_metrica : option string.

Local Abbreviation procesar :=
  (procesar_registro float_of_str fecha_inicio fecha_fin campo_metrica).
Local Abbreviation bucle_de :=
  (bucle float_of_str fecha_inicio fecha_fin campo_metrica).
Local Abbreviation calcular_sobre := (fun registros =>
  calcular_estadisticas_pacientes float_of_str registros fecha_inicio fecha_fin campo_metrica).

(** Two records with the same step are interchangeable anywhere in the
    list. *)
Lemma calcular_replace (r r' : gmap string value) (l1 l2 : list (gmap string value)) :
  (forall res, procesar res r = procesar res r') ->
  calcular_sobre (l1 ++ r :: l2) = calcular_sobre (l1 ++ r' :: l2).
Proof.
  intros H. unfold calcular_estadisticas_pacientes. rewrite !bucle_app.
  destruct (bucle_de ∅ l1) as [res | e]; cbn; [|reflexivity]. by rewrite H.
Qed.

(** A record whose step is a [continue] can be dropped from the list. *)
Lemma calcular_skip (r : gmap string value) (l1 l2 : list (gmap string value)) :
  (forall res, procesar res r = Ok res) ->
  calcular_sobre (l1 ++ r :: l2) = calcular_sobre (l1 ++ l2).
Proof.
  intros H. unfold calcular_estadisticas_pacientes. rewrite !bucle_app.
  destruct (bucle_de ∅ l1) as [res | e]; cbn; [|reflexivity]. by rewrite H.
Qed.

(** A record whose step raises makes the whole call raise. *)
Lemma calcular_raise (r : gmap string value) (e : exn) (l1 l2 : list (gmap string value)) :
  (forall res, procesar res r = Raise e) ->
  exists e', calcular_sobre (l1 ++ r :: l2) = Raise e'.
Proof.
  intros H. unfold calcular_estadisticas_pacientes. rewrite bucle_app.
  destruct (bucle_de ∅ l1) as [res | e1]; cbn; [|eauto]. rewrite H. cbn. eauto.
Qed.

(** A record that leaves every accumulator it returns unchanged adds
    nothing to a result. *)
Lemma calcular_no_effect (r : gmap string value) (l1 l2 : list (gmap string value))
    (est : gmap value estadistica) :
  (forall res res', procesar res r = Ok res' -> res' = res) ->
  calcular_sobre (l1 ++ r :: l2) = Ok est ->
  calcular_sobre (l1 ++ l2) = Ok est.
Proof.
  intros H. unfold calcular_estadisticas_pacientes. rewrite !bucle_app.
  destruct (bucle_de ∅ l1) as [res | e]; cbn; [|done].
  destruct (procesar res r) as [res' | e] eqn:Hr; cbn; [|done].
  by rewrite (H _ _ Hr).
Qed.

End OneRecord.

(** ** The claims *)

Section Claims.

Variable float_of_str : string -> option spec_float.

Local Abbreviation calcular := (calcular_estadisticas_pacientes float_of_str).

(** C1. With a requested metric, every emitted category carries the
    average [sum / count]: the sum runs over the float-coercible metric
    values of the category's counted records, in input order from [0.0], and
    the divisor is the number of all its counted records.  A category none
    of whose records contributes a value has average [0.0].  On categories A
    (metric 5 and 6) and B (metric 9) the result is A: 2 and 5.5, B: 1 and
    9.0. *)
Theorem average_over_full_count
    (registros : list (gmap string value)) (fecha_inicio fecha_fin : date)
    (campo_metrica : option string) (c : string)
    (est : gmap value estadistica) (tipo : value) (e : estadistica)
    (Hcampo : campo_solicitado campo_metrica = Some c)
    (Hest : calcular registros fecha_inicio fecha_fin campo_metrica = Ok est)
    (He : est !! tipo = Some e) :
  let rs := registros_de fecha_inicio fecha_fin tipo registros in
  cantidad e = Z.of_nat (length rs)
  /\ 0 < cantidad e
  /\ (exists n, int_to_float (cantidad e) = Ok n
        /\ promedio e = Some (F64.div (suma_metrica float_of_str campo_metrica rs) n))
  /\ (omap (contribucion float_of_str campo_metrica) rs = [] -> promedio e = Some F64.zero)
  /\ calcular registros_AB (fst enero_2025) (snd enero_2025) (Some "tiempoHospitalizacion")
     = Ok estadisticas_AB
  /\ exactly f64_5_5 (11 # 2) /\ exactly f64_9_0 (9 # 1).
Proof.
  intros rs. unfold calcular_estadisticas_pacientes in Hest.
  destruct (bucle float_of_str fecha_inicio fecha_fin campo_metrica ∅ registros)
    as [res | ex] eqn:Hb; cbn in Hest; [|discriminate].
  pose proof (preparar_spec campo_metrica res) as Hp. rewrite Hest in Hp.
  specialize (Hp tipo).
  rewrite (bucle_lookup _ _ _ _ _ _ tipo Hb) in Hp. fold rs in Hp.
  destruct rs as [| r rs'] eqn:Hrs; [congruence|].
  destruct Hp as (e' & Hres & He'). assert (e' = e) as -> by congruence.
  rewrite resumir_pos, Hcampo in Hres by (cbn [count length]; lia). cbn [count sum_metric] in Hres.
  destruct (int_to_float (Z.of_nat (length (r :: rs')))) as [n | ex] eqn:Hn;
    cbn in Hres; [|discriminate].
  injection Hres as <-. cbn [cantidad promedio].
  split; [reflexivity|]. split; [cbn [length]; lia|].
  split; [exists n; split; [exact Hn | reflexivity]|].
  split; [|split; [evaluate | split; reflexivity]].
  intros Hnone. unfold suma_metrica. cbn [omap list_omap] in Hnone |- *.
  rewrite Hnone. cbn [foldl].
  f_equal. eapply div_zero_pos; [|exact Hn]. cbn [length]. lia.
Qed.

Local Abbreviation procesar := (procesar_registro float_of_str).

(** C2, as the code has it.  A record whose admission date is absent or
    [None] is skipped and can be dropped from the input; a date field holding
    a [bool], an [int] or a [float] makes the comparison with the range raise
    [TypeError], and the call raises. *)
Theorem absent_date_skipped_other_types_raise
    (r : gmap string value) (fecha_inicio fecha_fin : date) (campo_metrica : option string) :
  (dict_get r "fechaIngreso" = VNone ->
     (forall res, procesar fecha_inicio fecha_fin campo_metrica res r = Ok res)
     /\ forall l1 l2,
          calcular (l1 ++ r :: l2) fecha_inicio fecha_fin campo_metrica
          = calcular (l1 ++ l2) fecha_inicio fecha_fin campo_metrica)
  /\ (otro_tipo (dict_get r "fechaIngreso") = true ->
       (forall res, procesar fecha_inicio fecha_fin campo_metrica res r = Raise TypeError)
       /\ forall l1 l2, exists e,
            calcular (l1 ++ r :: l2) fecha_inicio fecha_fin campo_metrica = Raise e).
Proof.
  split; intros Hf.
  - assert (H : forall res, procesar fecha_inicio fecha_fin campo_metrica res r = Ok res).
    { apply procesar_continue; unfold categoria_contada, fecha_de; by rewrite Hf. }
    split; [exact H|]. intros l1 l2. by apply calcular_skip.
  - assert (H : forall res, procesar fecha_inicio fecha_fin campo_metrica res r = Raise TypeError).
    { intros res. by rewrite procesar_unfold, Hf. }
    split; [exact H|]. intros l1 l2. by eapply calcular_raise.
Qed.

(** C5. A record whose admission date is a string that [strptime] rejects
    is skipped: its step returns the accumulator unchanged, without raising,
    and the call gives what it gives without the record. *)
Theorem malformed_date_string_skipped
    (r : gmap string value) (s : string) (fecha_inicio fecha_fin : date)
    (campo_metrica : option string)
    (Hs : dict_get r "fechaIngreso" = VStr s)
    (Hp : Fecha.strptime s = None) :
  (forall res, procesar fecha_inicio fecha_fin campo_metrica res r = Ok res)
  /\ (forall l1 l2,
        calcular (l1 ++ r :: l2) fecha_inicio fecha_fin campo_metrica
        = calcular (l1 ++ l2) fecha_inicio fecha_fin campo_metrica)
  /\ Fecha.strptime "not-a-date" = None.
Proof.
  assert (H : forall res, procesar fecha_inicio fecha_fin campo_metrica res r = Ok res).
  { apply procesar_continue; unfold categoria_contada, fecha_de; by rewrite Hs, ?Hp. }
  split; [exact H|]. split; [|reflexivity]. intros l1 l2. by apply calcular_skip.
Qed.

(** C8. A record whose category is missing, empty or otherwise falsy adds
    nothing to any result, and with a date that is absent, a string or a
    native date, in range or not, it can be dropped from the input. *)
Theorem falsy_category_excluded
    (r : gmap string value) (fecha_inicio fecha_fin : date) (campo_metrica : option string)
    (Hcat : truthy (dict_get r "tipoEnfermedad") = false) :
  (forall res res', procesar fecha_inicio fecha_fin campo_metrica res r = Ok res' -> res' = res)
  /\ (forall l1 l2 est,
        calcular (l1 ++ r :: l2) fecha_inicio fecha_fin campo_metrica = Ok est ->
        calcular (l1 ++ l2) fecha_inicio fecha_fin campo_metrica = Ok est)
  /\ (otro_tipo (dict_get r "fechaIngreso") = false ->
       (forall res, procesar fecha_inicio fecha_fin campo_metrica res r = Ok res)
       /\ forall l1 l2,
            calcular (l1 ++ r :: l2) fecha_inicio fecha_fin campo_metrica
            = calcular (l1 ++ l2) fecha_inicio fecha_fin campo_metrica)
  /\ truthy (dict_get ∅ "tipoEnfermedad") = false
  /\ truthy (VStr "") = false /\ truthy VNone = false
  /\ truthy (VInt 0) = false /\ truthy (VBool false) = false.
Proof.
  assert (Hk : categoria_contada fecha_inicio fecha_fin r = None).
  { unfold categoria_contada. destruct (fecha_de r); [|done].
    by rewrite Hcat, andb_false_r. }
  assert (H : forall res res',
             procesar fecha_inicio fecha_fin campo_metrica res r = Ok res' -> res' = res).
  { intros res res'. rewrite procesar_unfold, Hk.
    destruct (otro_tipo _); [discriminate | by intros [= <-]]. }
  split; [exact H|]. split; [|split; [|by repeat split]].
  - intros l1 l2 est. by apply calcular_no_effect.
  - intros Hf.
    assert (H' : forall res, procesar fecha_inicio fecha_fin campo_metrica res r = Ok res)
      by by apply procesar_continue.
    split; [exact H'|]. intros l1 l2. by apply calcular_skip.
Qed.




(** C6. When no date string is also a float literal (as in CPython),
    putting the native date in place of the date string that denotes it
    changes neither the step of the record nor the result of any list holding
    it. *)
Theorem date_string_or_native_date
    (r : gmap string value) (s : string) (d : date) (fecha_inicio fecha_fin : date)
    (campo_metrica : option string)
    (Hfloat : forall s', is_Some (Fecha.strptime s') -> float_of_str s' = None)
    (Hs : r !! "fechaIngreso" = Some (VStr s))
    (Hd : Fecha.strptime s = Some d) :
  let r' := <["fechaIngreso" := VDate d]> r in
  (forall res, procesar fecha_inicio fecha_fin campo_metrica res r
               = procesar fecha_inicio fecha_fin campo_metrica res r')
  /\ (forall l1 l2,
        calcular (l1 ++ r :: l2) fecha_inicio fecha_fin campo_metrica
        = calcular (l1 ++ r' :: l2) fecha_inicio fecha_fin campo_metrica)
  /\ Fecha.strptime "2025-01-10" = Some (Fecha.mkdate 2025 1 10).
Proof.
  intros r'.
  assert (Hf : dict_get r "fechaIngreso" = VStr s) by (unfold dict_get; by rewrite Hs).
  assert (Hf' : dict_get r' "fechaIngreso" = VDate d)
    by (unfold dict_get, r'; by rewrite lookup_insert_eq).
  assert (Ht : dict_get r' "tipoEnfermedad" = dict_get r "tipoEnfermedad")
    by (unfold dict_get, r'; by rewrite lookup_insert_ne).
  assert (Hk : categoria_contada fecha_inicio fecha_fin r'
               = categoria_contada fecha_inicio fecha_fin r).
  { unfold categoria_contada, fecha_de. by rewrite Hf, Hf', Ht, Hd. }
  assert (Hm : forall tipo res,
             acumular_metrica float_of_str campo_metrica tipo r' res
             = acumular_metrica float_of_str campo_metrica tipo r res).
  { intros tipo res. unfold acumular_metrica.
    destruct (campo_solicitado campo_metrica) as [c|]; [|reflexivity].
    destruct (decide (c = "fechaIngreso")) as [-> | Hne].
    - unfold r'. rewrite lookup_insert_eq, Hs. cbn.
      by rewrite (Hfloat s) by (by rewrite Hd).
    - unfold r'. by rewrite lookup_insert_ne. }
  assert (H : forall res, procesar fecha_inicio fecha_fin campo_metrica res r
                          = procesar fecha_inicio fecha_fin campo_metrica res r').
  { intros res. by rewrite !procesar_unfold, Hf, Hf', Hk, Ht, Hm. }
  split; [exact H|]. split; [|reflexivity]. intros l1 l2. by apply calcular_replace.
Qed.

(** C7, as the code has it.  When the call returns on a list it returns on
    every permutation of it, with the same categories and the same count for
    each; without a requested metric the two results are equal.  The averages
    depend on the order in which binary64 addition meets the values. *)
Theorem permutation_keeps_counts
    (l1 l2 : list (gmap string value)) (fecha_inicio fecha_fin : date)
    (campo_metrica : option string) (est1 : gmap value estadistica)
    (Hperm : l1 ≡ₚ l2)
    (H1 : calcular l1 fecha_inicio fecha_fin campo_metrica = Ok est1) :
  exists est2,
    calcular l2 fecha_inicio fecha_fin campo_metrica = Ok est2
    /\ cantidad <$> est1 = cantidad <$> est2
    /\ (campo_solicitado campo_metrica = None -> est1 = est2).
Proof.
  unfold calcular_estadisticas_pacientes in *.
  destruct (bucle float_of_str fecha_inicio fecha_fin campo_metrica ∅ l1) as [res1 | e] eqn:Hb1;
    cbn in H1; [|discriminate].
  pose proof (bucle_ok _ _ _ _ _ _ _ Hb1) as [Hall _].
  rewrite Hperm in Hall.
  pose proof (bucle_procesados float_of_str fecha_inicio fecha_fin campo_metrica l2 ∅ Hall) as Hb2.
  rewrite Hb2. cbn. set (res2 := foldl _ ∅ l2) in *.
  assert (Hlook : forall k,
    match res1 !! k, res2 !! k with
    | Some d1, Some d2 => count d2 = count d1 /\ 0 < count d1
    | None, None => True
    | _, _ => False
    end).
  { intros k. rewrite (bucle_lookup _ _ _ _ _ _ k Hb1), (bucle_lookup _ _ _ _ _ _ k Hb2).
    assert (Hk : registros_de fecha_inicio fecha_fin k l1
                 ≡ₚ registros_de fecha_inicio fecha_fin k l2)
      by (unfold registros_de; by rewrite Hperm).
    pose proof (Permutation_length Hk) as Hlen.
    destruct (registros_de fecha_inicio fecha_fin k l1),
             (registros_de fecha_inicio fecha_fin k l2); try done.
    cbn [count]. rewrite Hlen. cbn [length]. lia. }
  pose proof (preparar_spec campo_metrica res1) as Hp1. rewrite H1 in Hp1.
  pose proof (preparar_spec campo_metrica res2) as Hp2.
  destruct (preparar campo_metrica res2) as [est2 | e].
  - exists est2. split; [reflexivity|].
    assert (Hkey : forall k,
      match est1 !! k, est2 !! k with
      | Some e1, Some e2 =>
          cantidad e1 = cantidad e2
          /\ (campo_solicitado campo_metrica = None -> promedio e1 = None /\ promedio e2 = None)
      | None, None => True
      | _, _ => False
      end).
    { intros k. specialize (Hlook k). specialize (Hp1 k). specialize (Hp2 k).
      destruct (res1 !! k) as [d1|], (res2 !! k) as [d2|]; try done.
      - destruct Hlook as [Hc Hpos].
        destruct Hp1 as (e1 & Hr1 & ->), Hp2 as (e2 & Hr2 & ->).
        apply resumir_cantidad in Hr1 as [-> Hn1]; [|done].
        apply resumir_cantidad in Hr2 as [-> Hn2]; [|lia]. auto.
      - by rewrite Hp1, Hp2. }
    split.
    + apply map_eq. intros k. rewrite !lookup_fmap. specialize (Hkey k).
      destruct (est1 !! k), (est2 !! k); try done. cbn. f_equal. apply Hkey.
    + intros Hnone. apply map_eq. intros k. specialize (Hkey k).
      destruct (est1 !! k) as [[c1 p1]|], (est2 !! k) as [[c2 p2]|]; try done.
      destruct Hkey as [Hc Hp]. destruct (Hp Hnone) as [Hp1' Hp2']. cbn in *. congruence.
  - exfalso. destruct Hp2 as (k & d2 & Hk2 & Hr2).
    specialize (Hlook k). specialize (Hp1 k). rewrite Hk2 in Hlook.
    destruct (res1 !! k) as [d1|]; [|done].
    destruct Hlook as [Hc Hpos]. destruct Hp1 as (e1 & Hr1 & _).
    destruct (resumir_same_count campo_metrica d1 d2 e1 Hpos Hc Hr1) as [e' He'].
    congruence.
Qed.

(** C9. Every category of a result has a count of at least one: after the
    loop every accumulator has a positive count, so the guard [count > 0] of
    the average always holds, and the call never raises
    [ZeroDivisionError]. *)
Theorem emitted_categories_counted
    (l : list (gmap string value)) (fecha_inicio fecha_fin : date)
    (campo_metrica : option string) :
  (forall res k d,
     bucle float_of_str fecha_inicio fecha_fin campo_metrica ∅ l = Ok res ->
     res !! k = Some d -> (0 <? count d) = true)
  /\ (forall est k e,
       calcular l fecha_inicio fecha_fin campo_metrica = Ok est ->
       est !! k = Some e -> 1 <= cantidad e)
  /\ calcular l fecha_inicio fecha_fin campo_metrica <> Raise ZeroDivisionError.
Proof.
  assert (Hpos : forall res k d,
    bucle float_of_str fecha_inicio fecha_fin campo_metrica ∅ l = Ok res ->
    res !! k = Some d -> 0 < count d).
  { intros res k d Hb. rewrite (bucle_lookup _ _ _ _ _ _ k Hb).
    destruct (registros_de fecha_inicio fecha_fin k l); [done|].
    intros [= <-]. cbn [count length]. lia. }
  split; [|split].
  - intros res k d Hb Hk. apply Z.ltb_lt. by eapply Hpos.
  - intros est k e Hest He.
    pose proof (calcular_cantidad _ _ _ _ _ _ k Hest) as Hc. rewrite He in Hc. cbn in Hc.
    destruct (registros_de fecha_inicio fecha_fin k l); [done|].
    injection Hc as ->. cbn [length]. lia.
  - unfold calcular_estadisticas_pacientes.
    destruct (bucle float_of_str fecha_inicio fecha_fin campo_metrica ∅ l) as [res | e] eqn:Hb;
      cbn.
    + pose proof (preparar_spec campo_metrica res) as Hp.
      destruct (preparar campo_metrica res) as [est | e]; [done|].
      destruct Hp as (k & d & Hk & Hr).
      apply resumir_raise in Hr as ->; [done|]. by eapply Hpos.
    + apply bucle_raise in Hb as [-> | ->]; done.
Qed.

(** C10. An empty metric name is no metric: the call returns what it
    returns without one, and no entry of its result has an average. *)
Theorem empty_metric_name_is_no_metric
    (l : list (gmap string value)) (fecha_inicio fecha_fin : date) :
  calcular l fecha_inicio fecha_fin (Some "") = calcular l fecha_inicio fecha_fin None
  /\ forall est k e,
       calcular l fecha_inicio fecha_fin (Some "") = Ok est ->
       est !! k = Some e -> promedio e = None.
Proof.
  assert (Hb : forall res,
    bucle float_of_str fecha_inicio fecha_fin (Some "") res l
    = bucle float_of_str fecha_inicio fecha_fin None res l).
  { induction l as [| r l' IH]; intros res; cbn; [reflexivity|].
    change (procesar fecha_inicio fecha_fin (Some "") res r)
      with (procesar fecha_inicio fecha_fin None res r).
    destruct (procesar fecha_inicio fecha_fin None res r); cbn; [apply IH | reflexivity]. }
  split.
  - unfold calcular_estadisticas_pacientes. rewrite Hb. reflexivity.
  - unfold calcular_estadisticas_pacientes. intros est k e.
    destruct (bucle float_of_str fecha_inicio fecha_fin (Some "") ∅ l) as [res | ex];
      cbn; [|discriminate].
    intros Hest He. pose proof (preparar_spec (Some "") res) as Hp.
    rewrite Hest in Hp. specialize (Hp k). rewrite He in Hp.
    destruct (res !! k) as [d|]; [|discriminate].
    destruct Hp as (e' & Hr & [= <-]). cbn in Hr. by injection Hr as <-.
Qed.

(** The step of a counted record whose requested metric is present but
    fails to convert with [ValueError] or [TypeError]: the count goes up by
    one and the sum stays. *)
Lemma non_numeric_metric_counted
    (r : gmap string value) (d : date) (fecha_inicio fecha_fin : date)
    (campo_metrica : option string) (c : string) (v : value) (e : exn)
    (Hd : fecha_de r = Some d)
    (Hin : en_intervalo fecha_inicio fecha_fin d = true)
    (Htipo : truthy (dict_get r "tipoEnfermedad") = true)
    (Hc : campo_solicitado campo_metrica = Some c)
    (Hv : r !! c = Some v)
    (He : py_float float_of_str v = Raise e)
    (Hcaught : e = ValueError \/ e = TypeError) :
  forall res,
    procesar fecha_inicio fecha_fin campo_metrica res r
    = Ok (incrementar (dict_get r "tipoEnfermedad") res).
Proof.
  intros res. rewrite procesar_unfold, (fecha_de_otro_tipo r d Hd).
  unfold categoria_contada. rewrite Hd, Hin, Htipo. cbn.
  unfold acumular_metrica. rewrite Hc, Hv, He. by destruct Hcaught as [-> | ->].
Qed.

End Claims.

(** ** The claims on concrete inputs *)

Lemma average_over_full_count_witness :
  cantidad (mk_estadistica 2 (Some f64_5_5)) = 2
  /\ promedio (mk_estadistica 2 (Some f64_5_5))
     = Some (F64.div (F64.add (F64.add F64.zero (F64.of_Z 5)) (F64.of_Z 6)) (F64.of_Z 2)).
Proof.
  pose proof (average_over_full_count float_of_digits registros_AB
                (fst enero_2025) (snd enero_2025) (Some "tiempoHospitalizacion")
                "tiempoHospitalizacion" estadisticas_AB (VStr "A")
                (mk_estadistica 2 (Some f64_5_5))
                eq_refl ltac:(evaluate) ltac:(evaluate))
    as (H1 & _ & (n & Hn & H3) & _).
  split; [exact H1|]. vm_compute. reflexivity.
Defined.

Lemma float_of_digits_fecha (s : string) :
  is_Some (Fecha.strptime s) -> float_of_digits s = None.
Proof.
  destruct s as [| y1 [| y2 [| y3 [| y4 [| c5 r]]]]];
    try (intros [x Hx]; discriminate Hx).
  destruct (ascii_dec c5 "-") as [-> | Hne].
  - intros _. unfold float_of_digits. cbn [digits_value].
    destruct (Fecha.is_digit y1); [|reflexivity].
    destruct (Fecha.is_digit y2); [|reflexivity].
    destruct (Fecha.is_digit y3); [|reflexivity].
    destruct (Fecha.is_digit y4); reflexivity.
  - intros [x Hx]. exfalso. apply Hne. clear -Hx.
    destruct c5 as [b0 b1 b2 b3 b4 b5 b6 b7]. cbn [Fecha.strptime] in Hx.
    destruct b0; [|discriminate Hx]. destruct b1; [discriminate Hx|].
    destruct b2; [|discriminate Hx]. destruct b3; [|discriminate Hx].
    destruct b4; [discriminate Hx|]. destruct b5; [|discriminate Hx].
    destruct b6; [discriminate Hx|]. destruct b7; [discriminate Hx|].
    reflexivity.
Qed.

Lemma absent_date_skipped_other_types_raise_witness :
  (forall l1 l2,
     calcular_estadisticas_pacientes float_of_digits (l1 ++ registro_sin_fecha :: l2)
       (fst enero_2025) (snd enero_2025) None
     = calcular_estadisticas_pacientes float_of_digits (l1 ++ l2)
         (fst enero_2025) (snd enero_2025) None)
  /\ (forall res,
       procesar_registro float_of_digits (fst enero_2025) (snd enero_2025) None res
         registro_fecha_entera = Raise TypeError).
Proof.
  split.
  - apply (absent_date_skipped_other_types_raise float_of_digits registro_sin_fecha).
    vm_compute. reflexivity.
  - apply (absent_date_skipped_other_types_raise float_of_digits registro_fecha_entera).
    vm_compute. reflexivity.
Defined.

(** The usage example of the source file: VIH 2 and 5.5, HCV 1 and 3.0,
    HBV 1 and 4.0; the record of 2025-02-05 falls outside the range. *)
Lemma ejemplo_de_uso :
  calcular_estadisticas_pacientes float_of_digits datos_pacientes
    (Fecha.mkdate 2025 1 10) (Fecha.mkdate 2025 2 4) (Some metrica)
  = Ok {[ VStr "VIH" := mk_estadistica 2 (Some f64_5_5);
          VStr "HCV" := mk_estadistica 1 (Some f64_3_0);
          VStr "HBV" := mk_estadistica 1 (Some f64_4_0) ]}
  /\ exactly f64_3_0 (3 # 1) /\ exactly f64_4_0 (4 # 1).
Proof. split; [evaluate|]. split; reflexivity. Qed.

(** C2 refuted as stated: a record whose admission date is the integer
    20250110 is not skipped; the call raises [TypeError]. *)
Lemma integer_date_raises :
  calcular_estadisticas_pacientes float_of_digits [registro_fecha_entera]
    (fst enero_2025) (snd enero_2025) None = Raise TypeError.
Proof. evaluate. Qed.


(** Outside the ranges, with the start after the end, a record admitted
    on the start date is not counted. *)
Lemma start_date_dropped_when_range_inverted :
  fecha_de registro_en_inicio = Some (fst intervalo_invertido)
  /\ truthy (dict_get registro_en_inicio "tipoEnfermedad") = true
  /\ calcular_estadisticas_pacientes float_of_digits [registro_en_inicio]
       (fst intervalo_invertido) (snd intervalo_invertido) None = Ok ∅.
Proof. split; [evaluate|]. split; evaluate. Qed.

(** C4, where the code departs from it: a counted record whose requested
    metric is the integer 2^1024, which [float] cannot convert, is not
    ignored; the [OverflowError] of the conversion leaves the call. *)
Theorem huge_metric_overflows :
  py_float float_of_digits (VInt (2 ^ 1024)) = Raise OverflowError
  /\ calcular_estadisticas_pacientes float_of_digits [registro_metrica_enorme]
       (fst enero_2025) (snd enero_2025) (Some metrica) = Raise OverflowError.
Proof. split; evaluate. Qed.

(** The example of C4: metric values 5 and "N/A" in one category give
    count 2 and average 2.5. *)
Lemma non_numeric_metric_example :
  calcular_estadisticas_pacientes float_of_digits [registro_fecha_cadena; registro_NA]
    (fst enero_2025) (snd enero_2025) (Some metrica)
  = Ok {[ VStr "A" := mk_estadistica 2 (Some f64_2_5) ]}
  /\ exactly f64_2_5 (5 # 2).
Proof. split; [evaluate | reflexivity]. Qed.

Lemma malformed_date_string_skipped_witness :
  procesar_registro float_of_digits (fst enero_2025) (snd enero_2025) (Some metrica) ∅
    registro_fecha_mala = Ok ∅
  /\ calcular_estadisticas_pacientes float_of_digits [registro_fecha_mala; registro_fecha_cadena]
       (fst enero_2025) (snd enero_2025) (Some metrica)
     = calcular_estadisticas_pacientes float_of_digits [registro_fecha_cadena]
         (fst enero_2025) (snd enero_2025) (Some metrica).
Proof.
  destruct (malformed_date_string_skipped float_of_digits registro_fecha_mala "not-a-date"
              (fst enero_2025) (snd enero_2025) (Some metrica)
              ltac:(vm_compute; reflexivity) ltac:(vm_compute; reflexivity))
    as (H1 & H2 & _).
  split; [apply H1 | apply (H2 [] [registro_fecha_cadena])].
Defined.

Lemma date_string_or_native_date_witness :
  calcular_estadisticas_pacientes float_of_digits [registro_fecha_cadena]
    (fst enero_2025) (snd enero_2025) (Some metrica)
  = calcular_estadisticas_pacientes float_of_digits
      [<["fechaIngreso" := VDate (Fecha.mkdate 2025 1 10)]> registro_fecha_cadena]
      (fst enero_2025) (snd enero_2025) (Some metrica).
Proof.
  destruct (date_string_or_native_date float_of_digits registro_fecha_cadena "2025-01-10"
              (Fecha.mkdate 2025 1 10) (fst enero_2025) (snd enero_2025) (Some metrica)
              float_of_digits_fecha
              ltac:(vm_compute; reflexivity) ltac:(vm_compute; reflexivity))
    as (_ & H & _).
  apply (H [] []).
Defined.

Lemma permutation_keeps_counts_witness :
  exists est2,
    calcular_estadisticas_pacientes float_of_digits registros_orden_2
      (fst enero_2025) (snd enero_2025) (Some metrica) = Ok est2
    /\ cantidad <$> ({[ VStr "A" := mk_estadistica 3 (Some F64.zero) ]} : gmap value estadistica)
       = cantidad <$> est2.
Proof.
  destruct (permutation_keeps_counts float_of_digits registros_orden_1 registros_orden_2
              (fst enero_2025) (snd enero_2025) (Some metrica)
              {[ VStr "A" := mk_estadistica 3 (Some F64.zero) ]}
              ltac:(apply perm_skip, perm_swap) ltac:(evaluate))
    as (est2 & H2 & Hc & _).
  exists est2. split; assumption.
Defined.

(** C7 refuted as stated: the metric values 10^16, 1 and -10^16 of one
    category average to 0.0 in this order and to 1/3 with the last two
    swapped. *)
Lemma summation_order_changes_average :
  registros_orden_1 ≡ₚ registros_orden_2
  /\ calcular_estadisticas_pacientes float_of_digits registros_orden_1
       (fst enero_2025) (snd enero_2025) (Some metrica)
     = Ok {[ VStr "A" := mk_estadistica 3 (Some F64.zero) ]}
  /\ calcular_estadisticas_pacientes float_of_digits registros_orden_2
       (fst enero_2025) (snd enero_2025) (Some metrica)
     = Ok {[ VStr "A" := mk_estadistica 3 (Some f64_un_tercio) ]}
  /\ calcular_estadisticas_pacientes float_of_digits registros_orden_1
       (fst enero_2025) (snd enero_2025) (Some metrica)
     <> calcular_estadisticas_pacientes float_of_digits registros_orden_2
          (fst enero_2025) (snd enero_2025) (Some metrica).
Proof.
  split; [apply perm_skip, perm_swap|]. split; [evaluate|]. split; evaluate.
Qed.

Lemma falsy_category_excluded_witness :
  calcular_estadisticas_pacientes float_of_digits [registro_fecha_cadena; registro_sin_tipo]
    (fst enero_2025) (snd enero_2025) (Some metrica)
  = calcular_estadisticas_pacientes float_of_digits [registro_fecha_cadena]
      (fst enero_2025) (snd enero_2025) (Some metrica).
Proof.
  destruct (falsy_category_excluded float_of_digits registro_sin_tipo
              (fst enero_2025) (snd enero_2025) (Some metrica)
              ltac:(vm_compute; reflexivity))
    as (_ & _ & H & _).
  destruct (H ltac:(vm_compute; reflexivity)) as [_ H'].
  apply (H' [registro_fecha_cadena] []).
Defined.

Lemma emitted_categories_counted_witness :
  1 <= cantidad (mk_estadistica 2 (Some f64_5_5)).
Proof.
  apply (emitted_categories_counted float_of_digits registros_AB
           (fst enero_2025) (snd enero_2025) (Some metrica))
    with (est := estadisticas_AB) (k := VStr "A"); evaluate.
Defined.

Lemma empty_metric_name_is_no_metric_witness :
  promedio (mk_estadistica 2 None) = None.
Proof.
  apply (empty_metric_name_is_no_metric float_of_digits registros_AB
           (fst enero_2025) (snd enero_2025))
    with (est := {[ VStr "A" := mk_estadistica 2 None; VStr "B" := mk_estadistica 1 None ]})
         (k := VStr "A"); evaluate.
Defined.

(** ** Further properties of the function *)

Section OrderFacts.

Lemma leb_iff (a b : date) :
  Fecha.leb a b = true <->
  Fecha.year a < Fecha.year b
  \/ (Fecha.year a = Fecha.year b
      /\ (Fecha.month a < Fecha.month b
          \/ (Fecha.month a = Fecha.month b /\ Fecha.day a <= Fecha.day b))).
Proof.
  unfold Fecha.leb.
  rewrite !orb_true_iff, !andb_true_iff, !orb_true_iff, !andb_true_iff.
  rewrite !Z.ltb_lt, !Z.eqb_eq, Z.leb_le. reflexivity.
Qed.

Lemma leb_trans (a b c : date) :
  Fecha.leb a b = true -> Fecha.leb b c = true -> Fecha.leb a c = true.
Proof. rewrite !leb_iff. lia. Qed.

End OrderFacts.

Section CountFacts.

Variable float_of_str : string -> option spec_float.

Local Abbreviation calcular := (calcular_estadisticas_pacientes float_of_str).

Lemma cuenta_registros (l : list (gmap string value)) (fecha_inicio fecha_fin : date)
    (campo_metrica : option string) (est : gmap value estadistica) (k : value) :
  calcular l fecha_inicio fecha_fin campo_metrica = Ok est ->
  cuenta est k = Z.of_nat (length (registros_de fecha_inicio fecha_fin k l)).
Proof.
  intros Hest. unfold cuenta. rewrite (calcular_cantidad _ _ _ _ _ _ k Hest).
  by destruct (registros_de fecha_inicio fecha_fin k l).
Qed.

Lemma registros_de_nil_iff (fecha_inicio fecha_fin : date) (k : value)
    (l : list (gmap string value)) :
  registros_de fecha_inicio fecha_fin k l = [] <->
  forall r, r ∈ l -> categoria_contada fecha_inicio fecha_fin r <> Some k.
Proof.
  unfold registros_de. split.
  - intros Hnil r Hr Hk.
    assert (Hin : r ∈ filter (fun r => categoria_contada fecha_inicio fecha_fin r = Some k) l)
      by (apply list_elem_of_filter; auto).
    rewrite Hnil in Hin. by apply elem_of_nil in Hin.
  - intros Hno. destruct (filter _ l) as [| r rs] eqn:Hf; [done|]. exfalso.
    assert (Hin : r ∈ filter (fun r => categoria_contada fecha_inicio fecha_fin r = Some k) l)
      by (rewrite Hf; left).
    apply list_elem_of_filter in Hin as [Hk Hr]. by apply (Hno r).
Qed.

Lemma emitted_counted
    (l : list (gmap string value)) (fecha_inicio fecha_fin : date)
    (campo_metrica : option string) (est : gmap value estadistica) (k : value) :
  calcular l fecha_inicio fecha_fin campo_metrica = Ok est ->
  (is_Some (est !! k) <->
   exists r, r ∈ l /\ categoria_contada fecha_inicio fecha_fin r = Some k).
Proof.
  intros Hest.
  pose proof (calcular_cantidad _ _ _ _ _ _ k Hest) as Hc.
  pose proof (registros_de_nil_iff fecha_inicio fecha_fin k l) as Hnil.
  destruct (registros_de fecha_inicio fecha_fin k l) as [| r rs] eqn:Hrs.
  - destruct (est !! k); [discriminate|]. split; [by intros [? ?]|].
    intros (r & Hr & Hk). exfalso. by apply (proj1 Hnil eq_refl r).
  - destruct (est !! k) as [e|]; [|discriminate]. split; [|eauto]. intros _.
    assert (Hin : r ∈ registros_de fecha_inicio fecha_fin k l) by (rewrite Hrs; left).
    apply list_elem_of_filter in Hin as [Hk Hr]. eauto.
Qed.

(** X2. A category is emitted exactly when some record of the input is
    counted under it, and its count is the number of those records. *)
Theorem emitted_iff_counted
    (l : list (gmap string value)) (fecha_inicio fecha_fin : date)
    (campo_metrica : option string) (est : gmap value estadistica) (k : value)
    (Hest : calcular l fecha_inicio fecha_fin campo_metrica = Ok est) :
  (is_Some (est !! k) <->
   exists r, r ∈ l /\ categoria_contada fecha_inicio fecha_fin r = Some k)
  /\ cuenta est k = Z.of_nat (length (registros_de fecha_inicio fecha_fin k l)).
Proof.
  split; [exact (emitted_counted _ _ _ _ _ k Hest)|].
  exact (cuenta_registros _ _ _ _ _ k Hest).
Qed.

(** X1. The result is empty exactly when no record is counted; and when
    every record is skipped, the date field of each being absent, a string
    or a date, the call returns the empty result. *)
Theorem empty_result_iff_nothing_counted
    (l : list (gmap string value)) (fecha_inicio fecha_fin : date)
    (campo_metrica : option string) :
  (Forall (fun r => fecha_admisible r
                    /\ categoria_contada fecha_inicio fecha_fin r = None) l ->
   calcular l fecha_inicio fecha_fin campo_metrica = Ok ∅)
  /\ (forall est,
       calcular l fecha_inicio fecha_fin campo_metrica = Ok est ->
       (est = ∅ <-> Forall (fun r => categoria_contada fecha_inicio fecha_fin r = None) l)).
Proof.
  split.
  - intros Hall. unfold calcular_estadisticas_pacientes.
    assert (Hb : forall res, bucle float_of_str fecha_inicio fecha_fin campo_metrica res l = Ok res).
    { induction Hall as [| r l' [Hr Hk] _ IH]; intros res; cbn; [reflexivity|].
      rewrite procesar_continue by done. cbn. apply IH. }
    rewrite Hb. reflexivity.
  - intros est Hest. split.
    + intros ->. apply Forall_forall. intros r Hr.
      destruct (categoria_contada fecha_inicio fecha_fin r) as [k|] eqn:Hk; [|done].
      exfalso. assert (Hs : is_Some ((∅ : gmap value estadistica) !! k)).
      { apply (emitted_counted l fecha_inicio fecha_fin campo_metrica ∅ k Hest). eauto. }
      rewrite lookup_empty in Hs. by destruct Hs.
    + intros Hall. apply map_empty. intros k.
      destruct (est !! k) as [e|] eqn:He; [|done]. exfalso.
      assert (Hs : is_Some (est !! k)) by (rewrite He; eauto).
      apply (emitted_counted l fecha_inicio fecha_fin campo_metrica est k Hest) in Hs
        as (r & Hr & Hk).
      rewrite Forall_forall in Hall. rewrite (Hall r Hr) in Hk. discriminate.
Qed.

(** X3. Asking for a metric, or for another one, changes no count: two
    calls on the same records and range that differ in the metric field and
    both return have the same categories with the same counts. *)
Theorem counts_independent_of_metric
    (l : list (gmap string value)) (fecha_inicio fecha_fin : date)
    (campo_1 campo_2 : option string) (est1 est2 : gmap value estadistica)
    (H1 : calcular l fecha_inicio fecha_fin campo_1 = Ok est1)
    (H2 : calcular l fecha_inicio fecha_fin campo_2 = Ok est2) :
  cantidad <$> est1 = cantidad <$> est2.
Proof.
  apply map_eq. intros k. rewrite !lookup_fmap.
  by rewrite (calcular_cantidad _ _ _ _ _ _ k H1), (calcular_cantidad _ _ _ _ _ _ k H2).
Qed.

(** X4. Counts of chunks add up: when the call returns on two lists and on
    their concatenation, the count of every category for the concatenation
    is the sum of its counts for the two lists. *)
Theorem counts_of_chunks_add_up
    (l1 l2 : list (gmap string value)) (fecha_inicio fecha_fin : date)
    (campo_metrica : option string) (est1 est2 est : gmap value estadistica)
    (H1 : calcular l1 fecha_inicio fecha_fin campo_metrica = Ok est1)
    (H2 : calcular l2 fecha_inicio fecha_fin campo_metrica = Ok est2)
    (H : calcular (l1 ++ l2) fecha_inicio fecha_fin campo_metrica = Ok est) :
  forall k, cuenta est k = cuenta est1 k + cuenta est2 k.
Proof.
  intros k.
  rewrite (cuenta_registros _ _ _ _ _ k H1), (cuenta_registros _ _ _ _ _ k H2),
    (cuenta_registros _ _ _ _ _ k H).
  unfold registros_de. rewrite filter_app, length_app. lia.
Qed.

Lemma categoria_wider (fecha_inicio fecha_fin inicio' fin' : date)
    (r : gmap string value) (k : value) :
  Fecha.leb inicio' fecha_inicio = true -> Fecha.leb fecha_fin fin' = true ->
  categoria_contada fecha_inicio fecha_fin r = Some k ->
  categoria_contada inicio' fin' r = Some k.
Proof.
  intros Hi Hf. unfold categoria_contada, en_intervalo.
  destruct (fecha_de r) as [d|]; [|done].
  destruct (Fecha.leb fecha_inicio d) eqn:H1; [|done].
  destruct (Fecha.leb d fecha_fin) eqn:H2; [|done].
  by rewrite (leb_trans _ _ _ Hi H1), (leb_trans _ _ _ H2 Hf).
Qed.

Lemma length_filter_impl {A : Type} (P Q : A -> Prop)
    `{forall x, Decision (P x)} `{forall x, Decision (Q x)} (l : list A) :
  (forall x, P x -> Q x) -> (length (filter P l) <= length (filter Q l))%nat.
Proof.
  intros HPQ. induction l as [| x l IH]; [done|].
  rewrite !filter_cons. destruct (decide (P x)) as [HP | HP].
  - rewrite decide_True by auto. cbn. lia.
  - destruct (decide (Q x)); cbn; lia.
Qed.

(** X5. Widening the range never lowers a count: with a start that is not
    later and an end that is not earlier, every category has at least the
    count it had. *)
Theorem wider_range_counts_more
    (l : list (gmap string value)) (fecha_inicio fecha_fin inicio' fin' : date)
    (campo_metrica : option string) (est est' : gmap value estadistica)
    (Hi : Fecha.leb inicio' fecha_inicio = true)
    (Hf : Fecha.leb fecha_fin fin' = true)
    (H : calcular l fecha_inicio fecha_fin campo_metrica = Ok est)
    (H' : calcular l inicio' fin' campo_metrica = Ok est') :
  forall k, cuenta est k <= cuenta est' k.
Proof.
  intros k.
  rewrite (cuenta_registros _ _ _ _ _ k H), (cuenta_registros _ _ _ _ _ k H').
  apply inj_le. unfold registros_de. apply length_filter_impl.
  intros r. by apply categoria_wider.
Qed.

(** X6. A range whose end lies before its start counts nothing: the call
    returns the empty result, unless a date field of another type makes it
    raise [TypeError]. *)
Theorem inverted_range_counts_nothing
    (l : list (gmap string value)) (fecha_inicio fecha_fin : date)
    (campo_metrica : option string)
    (Hinv : Fecha.ltb fecha_fin fecha_inicio = true) :
  calcular l fecha_inicio fecha_fin campo_metrica = Ok ∅
  \/ calcular l fecha_inicio fecha_fin campo_metrica = Raise TypeError.
Proof.
  assert (Hk : forall r, categoria_contada fecha_inicio fecha_fin r = None).
  { intros r. unfold categoria_contada, en_intervalo.
    destruct (fecha_de r) as [d|]; [|done].
    destruct (Fecha.leb fecha_inicio d) eqn:H1; [|done].
    destruct (Fecha.leb d fecha_fin) eqn:H2; [|done].
    unfold Fecha.ltb in Hinv. by rewrite (leb_trans _ _ _ H1 H2) in Hinv. }
  assert (Hb : forall res,
    bucle float_of_str fecha_inicio fecha_fin campo_metrica res l = Ok res
    \/ bucle float_of_str fecha_inicio fecha_fin campo_metrica res l = Raise TypeError).
  { induction l as [| r l' IH]; intros res; cbn; [by left|].
    rewrite procesar_unfold, Hk. destruct (otro_tipo _); cbn; [by right | apply IH]. }
  unfold calcular_estadisticas_pacientes. destruct (Hb ∅) as [-> | ->]; [by left | by right].
Qed.

End CountFacts.

Section RecordFacts.

Variable float_of_str : string -> option spec_float.
Variables fecha_inicio fecha_fin : date.
Variable campo_metrica : option string.

Local Abbreviation calcular_en := (fun registros =>
  calcular_estadisticas_pacientes float_of_str registros fecha_inicio fecha_fin campo_metrica).
Local Abbreviation procesar :=
  (procesar_registro float_of_str fecha_inicio fecha_fin campo_metrica).
Local Abbreviation bucle_de :=
  (bucle float_of_str fecha_inicio fecha_fin campo_metrica).
Local Abbreviation efecto_de := (efecto float_of_str fecha_inicio fecha_fin campo_metrica).
Local Abbreviation procesado :=
  (se_procesa float_of_str fecha_inicio fecha_fin campo_metrica).

Lemma foldl_efecto_contados (l : list (gmap string value)) :
  forall res : gmap value acumulador,
  foldl (fun acc r => efecto_de r acc) res (contados fecha_inicio fecha_fin l)
  = foldl (fun acc r => efecto_de r acc) res l.
Proof.
  unfold contados. induction l as [| r l IH]; intros res; [reflexivity|].
  rewrite filter_cons. destruct (decide (is_Some (categoria_contada fecha_inicio fecha_fin r)))
    as [Hk | Hk]; cbn [foldl]; [apply IH|].
  rewrite IH. unfold efecto.
  destruct (categoria_contada fecha_inicio fecha_fin r); [|reflexivity].
  exfalso. apply Hk. eauto.
Qed.

(** X7. The records that are not counted leave no trace: when the call
    returns, it returns the same result on the counted records alone. *)
Theorem skipped_records_leave_no_trace
    (l : list (gmap string value)) (est : gmap value estadistica)
    (Hest : calcular_en l = Ok est) :
  calcular_en (contados fecha_inicio fecha_fin l) = Ok est.
Proof.
  unfold calcular_estadisticas_pacientes in *.
  destruct (bucle_de ∅ l) as [res | e] eqn:Hb; cbn in Hest; [|discriminate].
  apply bucle_ok in Hb as [Hall ->].
  assert (Hall' : Forall procesado (contados fecha_inicio fecha_fin l)).
  { rewrite Forall_forall in Hall. apply Forall_forall. intros r Hr.
    apply list_elem_of_filter in Hr as [_ Hr]. by apply Hall. }
  rewrite (bucle_procesados _ _ _ _ _ ∅ Hall'). cbn.
  by rewrite foldl_efecto_contados.
Qed.

(** X8. Only three fields of a record are read: setting any other field
    (one that is neither the admission date, nor the category, nor the
    requested metric) changes no outcome. *)
Theorem other_fields_are_ignored
    (r : gmap string value) (campo : string) (v : value)
    (l1 l2 : list (gmap string value))
    (Hfecha : campo <> "fechaIngreso")
    (Htipo : campo <> "tipoEnfermedad")
    (Hmetrica : campo_solicitado campo_metrica <> Some campo) :
  calcular_en (l1 ++ <[campo := v]> r :: l2) = calcular_en (l1 ++ r :: l2).
Proof.
  apply calcular_replace. intros res.
  assert (Hf : dict_get (<[campo := v]> r) "fechaIngreso" = dict_get r "fechaIngreso")
    by (unfold dict_get; by rewrite lookup_insert_ne).
  assert (Ht : dict_get (<[campo := v]> r) "tipoEnfermedad" = dict_get r "tipoEnfermedad")
    by (unfold dict_get; by rewrite lookup_insert_ne).
  rewrite !procesar_unfold. unfold categoria_contada, fecha_de. rewrite Hf, Ht.
  destruct (otro_tipo _); [reflexivity|].
  destruct (match dict_get r "fechaIngreso" with
            | VDate d => Some d | VStr s => Fecha.strptime s | _ => None end)
    as [d|]; [|reflexivity].
  destruct (en_intervalo fecha_inicio fecha_fin d && truthy (dict_get r "tipoEnfermedad"));
    [|reflexivity].
  unfold acumular_metrica. destruct (campo_solicitado campo_metrica) as [m|]; [|reflexivity].
  rewrite lookup_insert_ne; [reflexivity | congruence].
Qed.

Lemma omap_none {A B : Type} (f : A -> option B) (l : list A) :
  Forall (fun x => f x = None) l -> omap f l = [].
Proof.
  induction 1 as [| x l Hx _ IH]; [reflexivity|]. cbn. by rewrite Hx.
Qed.

End RecordFacts.

Section TotalFacts.

(** The sum of a weight over the entries of a map, entry by entry. *)
Lemma weight_insert_None {A : Type} (w : A -> Z) (m : gmap value A) (k : value) (x : A) :
  m !! k = None ->
  map_fold (fun _ a n => w a + n) 0 (<[k := x]> m)
  = w x + map_fold (fun _ a n => w a + n) 0 m.
Proof.
  intros Hk. rewrite map_fold_insert_L; [reflexivity | intros; lia | exact Hk].
Qed.

Lemma weight_insert_Some {A : Type} (w : A -> Z) (m : gmap value A) (k : value) (x y : A) :
  m !! k = Some y ->
  map_fold (fun _ a n => w a + n) 0 (<[k := x]> m)
  = w x - w y + map_fold (fun _ a n => w a + n) 0 m.
Proof.
  intros Hk. rewrite <- (insert_delete_eq m k x).
  rewrite <- (insert_delete_id m k y Hk) at 2.
  rewrite !weight_insert_None by apply lookup_delete_eq. lia.
Qed.

Variable float_of_str : string -> option spec_float.
Variables fecha_inicio fecha_fin : date.
Variable campo_metrica : option string.

Local Abbreviation efecto_de := (efecto float_of_str fecha_inicio fecha_fin campo_metrica).

Lemma weight_efecto (r : gmap string value) (res : gmap value acumulador) :
  map_fold (fun _ d n => count d + n) 0 (efecto_de r res)
  = map_fold (fun _ d n => count d + n) 0 res
    + (if decide (is_Some (categoria_contada fecha_inicio fecha_fin r)) then 1 else 0).
Proof.
  unfold efecto. destruct (categoria_contada fecha_inicio fecha_fin r) as [k|].
  - rewrite decide_True by eauto. unfold aplicar.
    destruct (res !! k) as [d|] eqn:Hk.
    + rewrite (weight_insert_Some count res k _ d Hk). cbn. lia.
    + rewrite (weight_insert_None count res k _ Hk). cbn. lia.
  - rewrite decide_False by (by intros [? ?]). lia.
Qed.

Lemma weight_foldl_efecto (l : list (gmap string value)) :
  forall res : gmap value acumulador,
  map_fold (fun _ d n => count d + n) 0 (foldl (fun acc r => efecto_de r acc) res l)
  = map_fold (fun _ d n => count d + n) 0 res
    + Z.of_nat (length (contados fecha_inicio fecha_fin l)).
Proof.
  unfold contados. induction l as [| r l IH]; intros res; cbn [foldl]; [cbn; lia|].
  rewrite IH, weight_efecto, filter_cons.
  destruct (decide (is_Some (categoria_contada fecha_inicio fecha_fin r))); cbn [length]; lia.
Qed.

(** X10. The counts of a result add up to the number of counted records:
    every record that passes the date and category tests is counted once,
    under one category. *)
Theorem total_is_number_counted
    (l : list (gmap string value)) (est : gmap value estadistica)
    (Hest : calcular_estadisticas_pacientes float_of_str l fecha_inicio fecha_fin campo_metrica
            = Ok est) :
  total est = Z.of_nat (length (contados fecha_inicio fecha_fin l)).
Proof.
  unfold calcular_estadisticas_pacientes in Hest.
  destruct (bucle float_of_str fecha_inicio fecha_fin campo_metrica ∅ l) as [res | e] eqn:Hb;
    cbn in Hest; [|discriminate].
  assert (Hmap : cantidad <$> est = count <$> res).
  { apply map_eq. intros k. rewrite !lookup_fmap.
    pose proof (preparar_spec campo_metrica res) as Hp. rewrite Hest in Hp. specialize (Hp k).
    pose proof (bucle_lookup _ _ _ _ _ _ k Hb) as Hk.
    destruct (res !! k) as [d|]; [|by rewrite Hp].
    destruct Hp as (e & He & ->). cbn. f_equal.
    apply resumir_cantidad in He as [-> _]; [done|].
    destruct (registros_de fecha_inicio fecha_fin k l); [discriminate|].
    injection Hk as ->. cbn [count length]. lia. }
  transitivity (map_fold (fun (_ : value) n acc => n + acc) 0 (cantidad <$> est)).
  { unfold total. by rewrite map_fold_fmap. }
  rewrite Hmap, map_fold_fmap.
  apply bucle_ok in Hb as [_ ->].
  change (map_fold (fun (i : value) => (fun (n acc : Z) => n + acc) ∘ count) 0
            (foldl (fun acc r => efecto_de r acc) ∅ l))
    with (map_fold (fun (_ : value) d n => count d + n) 0
            (foldl (fun acc r => efecto_de r acc) ∅ l)).
  rewrite weight_foldl_efecto, map_fold_empty. lia.
Qed.

End TotalFacts.

Module F64Small.

Lemma digits2_pos_iter_xO (p k : positive) :
  Z.pos (digits2_pos (Pos.iter xO p k)) = Z.pos (digits2_pos p) + Z.pos k.
Proof.
  induction k as [| k IH] using Pos.peano_ind.
  - cbn. lia.
  - rewrite Pos.iter_succ. cbn [digits2_pos]. lia.
Qed.

(** A mantissa of 53 bits with an exponent in range is left as it is. *)
Lemma binary_round_aux_exact (mz : positive) (ez : Z) :
  Z.pos (digits2_pos mz) = 53 -> -1074 <= ez <= 971 ->
  binary_round_aux 53 1024 false (Z.pos mz) ez loc_Exact = S754_finite false mz ez.
Proof.
  intros Hd He. unfold binary_round_aux, shr_fexp, fexp, emin.
  cbn [Zdigits2 shr_record_of_loc].
  rewrite Hd. replace (Z.max (53 + ez - 53) (3 - 1024 - 53) - ez) with 0 by lia.
  cbn [shr shr_m loc_of_shr_record round_nearest_even Zdigits2 shr_record_of_loc].
  rewrite Hd. replace (Z.max (53 + ez - 53) (3 - 1024 - 53) - ez) with 0 by lia.
  cbn [shr shr_m].
  replace (ez <=? 1024 - 53) with true by (symmetry; apply Z.leb_le; lia). reflexivity.
Qed.

(** Integers below 2^53 convert to a finite float. *)
Lemma of_Z_small (n : Z) :
  0 < n < 2 ^ 53 -> exists m e, F64.of_Z n = S754_finite false m e.
Proof.
  intros [Hn Hp]. destruct n as [| p |]; try lia.
  pose proof (F64Facts.digits2_pos_bounds p) as [Hlo _].
  assert (Hd : Z.pos (digits2_pos p) <= 53).
  { destruct (Z.le_gt_cases (Z.pos (digits2_pos p)) 53) as [H | H]; [assumption|].
    exfalso.
    assert (2 ^ 53 <= 2 ^ (Z.pos (digits2_pos p) - 1)) by (apply Z.pow_le_mono_r; lia).
    lia. }
  unfold F64.of_Z, F64.prec, F64.emax, binary_normalize, binary_round, shl_align, fexp, emin.
  replace (Z.max (Z.pos (digits2_pos p) + 0 - 53) (3 - 1024 - 53) - 0)
    with (Z.pos (digits2_pos p) - 53) by lia.
  destruct (Z.pos (digits2_pos p) - 53) as [| k | k] eqn:Hk; try lia.
  - replace (Z.max (Z.pos (digits2_pos p) + 0 - 53) (3 - 1024 - 53)) with 0 by lia.
    eexists _, _. apply binary_round_aux_exact; lia.
  - eexists _, _. apply binary_round_aux_exact.
    + rewrite digits2_pos_iter_xO. lia.
    + lia.
Qed.

End F64Small.

Lemma int_to_float_small (n : Z) :
  0 < n < 2 ^ 53 -> exists y, int_to_float n = Ok y.
Proof.
  intros Hn. unfold int_to_float.
  destruct (F64Small.of_Z_small n Hn) as (m & e & ->). eauto.
Qed.

Section ErrorFacts.

Variable float_of_str : string -> option spec_float.
Variables fecha_inicio fecha_fin : date.
Variable campo_metrica : option string.

Local Abbreviation calcular_en := (fun registros =>
  calcular_estadisticas_pacientes float_of_str registros fecha_inicio fecha_fin campo_metrica).
Local Abbreviation procesar :=
  (procesar_registro float_of_str fecha_inicio fecha_fin campo_metrica).
Local Abbreviation bucle_de :=
  (bucle float_of_str fecha_inicio fecha_fin campo_metrica).
Local Abbreviation efecto_de := (efecto float_of_str fecha_inicio fecha_fin campo_metrica).
Local Abbreviation procesado :=
  (se_procesa float_of_str fecha_inicio fecha_fin campo_metrica).

(** Why the step of a record raises. *)
Lemma procesar_raise_why (r : gmap string value) (res : gmap value acumulador) (e : exn) :
  procesar res r = Raise e ->
  (e = TypeError /\ otro_tipo (dict_get r "fechaIngreso") = true)
  \/ (e = OverflowError /\ is_Some (campo_solicitado campo_metrica)
      /\ ~ sin_desborde float_of_str campo_metrica r).
Proof.
  rewrite procesar_unfold. destruct (otro_tipo _); [intros [= <-]; by left|].
  destruct (categoria_contada fecha_inicio fecha_fin r) as [k|]; [|discriminate].
  unfold acumular_metrica.
  destruct (campo_solicitado campo_metrica) as [m|] eqn:Hm; [|discriminate].
  destruct (r !! m) as [v|] eqn:Hv; [|discriminate].
  destruct (py_float float_of_str v) as [x | e'] eqn:Hx; [discriminate|].
  destruct (py_float_raises float_of_str v e' Hx) as [-> | [-> | ->]]; try discriminate.
  intros [= <-]. right. split; [done|]. split; [eauto|].
  intros Hsd. by apply (Hsd m v Hm Hv).
Qed.

(** A loop that raises does so at one of its records. *)
Lemma bucle_raise_record (l : list (gmap string value)) :
  forall (res : gmap value acumulador) (e : exn),
  bucle_de res l = Raise e -> exists r res', r ∈ l /\ procesar res' r = Raise e.
Proof.
  induction l as [| r l IH]; intros res e; cbn; [discriminate|].
  destruct (procesar res r) as [res1 | e1] eqn:Hr; cbn.
  - intros H. apply IH in H as (r' & res' & Hin & Hr'). exists r', res'. split; [by right | done].
  - intros [= <-]. exists r, res. split; [by left | done].
Qed.

(** X11. The only exceptions that leave the call are [TypeError], from a
    date field that is neither absent, a string nor a date, and
    [OverflowError], with a requested metric; [ValueError] and
    [ZeroDivisionError] never do. *)
Theorem only_type_and_overflow_errors_escape
    (l : list (gmap string value)) (e : exn)
    (Hraise : calcular_en l = Raise e) :
  (e = TypeError
   /\ Exists (fun r => otro_tipo (dict_get r "fechaIngreso") = true) l)
  \/ (e = OverflowError /\ is_Some (campo_solicitado campo_metrica)).
Proof.
  unfold calcular_estadisticas_pacientes in Hraise.
  destruct (bucle_de ∅ l) as [res | e'] eqn:Hb; cbn in Hraise.
  - pose proof (preparar_spec campo_metrica res) as Hp. rewrite Hraise in Hp.
    destruct Hp as (k & d & Hk & Hr).
    assert (Hpos : 0 < count d).
    { rewrite (bucle_lookup _ _ _ _ _ _ k Hb) in Hk.
      destruct (registros_de fecha_inicio fecha_fin k l); [discriminate|].
      injection Hk as <-. cbn [count length]. lia. }
    right. split; [by eapply resumir_raise|].
    rewrite resumir_pos in Hr by done.
    destruct (campo_solicitado campo_metrica); [eauto | discriminate].
  - injection Hraise as ->.
    apply bucle_raise_record in Hb as (r & res' & Hin & Hr).
    apply procesar_raise_why in Hr as [[-> Hot] | (-> & Hm & _)]; [left | by right].
    split; [done|]. apply Exists_exists. eauto.
Qed.

Lemma procesar_sin_metrica (r : gmap string value) :
  campo_solicitado campo_metrica = None -> fecha_admisible r -> procesado r.
Proof.
  intros Hm Hr. destruct (procesar_cases float_of_str fecha_inicio fecha_fin campo_metrica r)
    as [H | (e & _ & H)]; [exact H|].
  exfalso. specialize (H ∅).
  apply procesar_raise_why in H as [[_ Hot] | (_ & [m Hm'] & _)]; congruence.
Qed.

(** X12. Without a requested metric the dates alone decide whether the
    call returns: it raises [TypeError] when some date field is of another
    type, and otherwise returns, for each category with a counted record,
    the number of its counted records and no average. *)
Theorem without_metric_only_dates_can_fail
    (l : list (gmap string value))
    (Hcampo : campo_solicitado campo_metrica = None) :
  (Exists (fun r => otro_tipo (dict_get r "fechaIngreso") = true) l ->
   calcular_en l = Raise TypeError)
  /\ (Forall fecha_admisible l ->
      exists est,
        calcular_en l = Ok est
        /\ forall k,
             est !! k =
             match registros_de fecha_inicio fecha_fin k l with
             | [] => None
             | rs => Some (mk_estadistica (Z.of_nat (length rs)) None)
             end).
Proof.
  split.
  - intros Hex. unfold calcular_estadisticas_pacientes.
    assert (Hb : forall res, bucle_de res l = Raise TypeError).
    { induction l as [| r l' IH]; intros res; [by apply Exists_nil in Hex|].
      cbn. destruct (otro_tipo (dict_get r "fechaIngreso")) eqn:Hot.
      - by rewrite procesar_unfold, Hot.
      - rewrite (procesar_sin_metrica r Hcampo Hot). cbn. apply IH.
        apply Exists_cons in Hex as [Hr | Hl]; [congruence | done]. }
    by rewrite Hb.
  - intros Hall. unfold calcular_estadisticas_pacientes.
    assert (Hp : Forall procesado l).
    { eapply Forall_impl; [exact Hall|]. intros r Hr. by apply procesar_sin_metrica. }
    pose proof (bucle_procesados _ _ _ _ l ∅ Hp) as Hb. rewrite Hb. cbn.
    set (res := foldl _ ∅ l) in *.
    pose proof (preparar_spec campo_metrica res) as Hprep.
    assert (Hres : forall d, resumir campo_metrica d = Ok (mk_estadistica (count d) None))
      by (intros d; unfold resumir; by rewrite Hcampo).
    destruct (preparar campo_metrica res) as [est | e].
    + exists est. split; [reflexivity|]. intros k. specialize (Hprep k).
      rewrite (bucle_lookup _ _ _ _ _ _ k Hb) in Hprep.
      destruct (registros_de fecha_inicio fecha_fin k l); [done|].
      destruct Hprep as (e & He & ->). rewrite Hres in He. by injection He as <-.
    + destruct Hprep as (k & d & _ & Hd). by rewrite Hres in Hd.
Qed.

(** X13. The first record that raises decides: when the call returns on a
    list and raises on a record taken alone, it raises that exception on the
    list followed by the record, whatever comes after. *)
Theorem first_raising_record_decides
    (l1 l2 : list (gmap string value)) (r : gmap string value)
    (est1 : gmap value estadistica) (e : exn)
    (H1 : calcular_en l1 = Ok est1)
    (Hr : calcular_en [r] = Raise e) :
  calcular_en (l1 ++ r :: l2) = Raise e.
Proof.
  assert (Hstep : forall res, procesar res r = Raise e).
  { destruct (procesar_cases float_of_str fecha_inicio fecha_fin campo_metrica r)
      as [Hok | (e' & _ & Hraise)].
    - exfalso. unfold calcular_estadisticas_pacientes in Hr.
      assert (Hb : bucle_de ∅ [r] = Ok (efecto_de r ∅)) by (cbn; by rewrite Hok).
      rewrite Hb in Hr. cbn in Hr.
      pose proof (preparar_spec campo_metrica (efecto_de r ∅)) as Hp. rewrite Hr in Hp.
      destruct Hp as (k & d & Hk & Hd).
      rewrite (bucle_lookup _ _ _ _ _ _ k Hb) in Hk. unfold registros_de in Hk.
      rewrite filter_cons, filter_nil in Hk.
      destruct (decide (categoria_contada fecha_inicio fecha_fin r = Some k)); [|discriminate].
      injection Hk as <-. rewrite resumir_pos in Hd by (cbn; lia).
      destruct (campo_solicitado campo_metrica); [|discriminate].
      cbn [count length] in Hd.
      destruct (int_to_float_small (Z.of_nat 1)) as [y Hy]; [cbn; lia|].
      rewrite Hy in Hd. discriminate.
    - intros res. unfold calcular_estadisticas_pacientes in Hr. cbn in Hr.
      rewrite Hraise in Hr. cbn in Hr. injection Hr as <-. apply Hraise. }
  unfold calcular_estadisticas_pacientes in *. rewrite bucle_app.
  destruct (bucle_de ∅ l1) as [res1 | e1]; cbn in H1; [|discriminate].
  cbn. by rewrite Hstep.
Qed.

(** X14. With dates of the admitted types and no metric value that is an
    [int] too large for a float, the call returns on every list of fewer
    than 2^53 records: malformed date strings, missing fields and metric
    values that are not numbers never raise. *)
Theorem clean_types_never_raise
    (l : list (gmap string value))
    (Hlen : Z.of_nat (length l) < 2 ^ 53)
    (Hall : Forall (fun r => fecha_admisible r
                             /\ sin_desborde float_of_str campo_metrica r) l) :
  exists est, calcular_en l = Ok est.
Proof.
  assert (Hp : Forall procesado l).
  { eapply Forall_impl; [exact Hall|]. intros r [Hr Hsd].
    destruct (procesar_cases float_of_str fecha_inicio fecha_fin campo_metrica r)
      as [H | (e & _ & H)]; [exact H|].
    exfalso. specialize (H ∅).
    apply procesar_raise_why in H as [[_ Hot] | (_ & _ & Hno)]; [congruence | done]. }
  unfold calcular_estadisticas_pacientes.
  pose proof (bucle_procesados _ _ _ _ l ∅ Hp) as Hb. rewrite Hb. cbn.
  set (res := foldl _ ∅ l) in *.
  pose proof (preparar_spec campo_metrica res) as Hprep.
  destruct (preparar campo_metrica res) as [est | e]; [eauto|]. exfalso.
  destruct Hprep as (k & d & Hk & Hd).
  rewrite (bucle_lookup _ _ _ _ _ _ k Hb) in Hk.
  pose proof (length_filter (fun r => categoria_contada fecha_inicio fecha_fin r = Some k) l)
    as Hle.
  unfold registros_de in Hk.
  destruct (filter _ l) as [| r rs]; [discriminate|]. injection Hk as <-.
  rewrite resumir_pos in Hd by (cbn [count length]; lia).
  destruct (campo_solicitado campo_metrica); [|discriminate].
  cbn [count length] in Hd.
  destruct (int_to_float_small (Z.of_nat (S (length rs)))) as [y Hy];
    [cbn [length] in Hle; lia|].
  rewrite Hy in Hd. discriminate.
Qed.

End ErrorFacts.

Section AbsentMetric.

Variable float_of_str : string -> option spec_float.
Variables fecha_inicio fecha_fin : date.
Variable campo_metrica : option string.

Local Abbreviation calcular_en := (fun registros =>
  calcular_estadisticas_pacientes float_of_str registros fecha_inicio fecha_fin campo_metrica).

(** A record without the requested metric has nothing to convert. *)
Lemma sin_desborde_absent (r : gmap string value) (m : string) :
  campo_solicitado campo_metrica = Some m -> r !! m = None ->
  sin_desborde float_of_str campo_metrica r.
Proof. intros Hm Hr c v Hc Hv. congruence. Qed.

(** X9. A requested metric that no record has is no error of its own.
    Every category of a result carries the average [0.0]; on fewer than 2^53
    records the only exception is the [TypeError] of a date field of another
    type, and the call returns when there is none. *)
Theorem absent_metric_averages_zero
    (l : list (gmap string value)) (m : string)
    (Hcampo : campo_solicitado campo_metrica = Some m)
    (Habsent : Forall (fun r => r !! m = None) l) :
  (forall est k e,
     calcular_en l = Ok est -> est !! k = Some e -> promedio e = Some F64.zero)
  /\ (Z.of_nat (length l) < 2 ^ 53 ->
      forall e,
        calcular_en l = Raise e ->
        e = TypeError
        /\ Exists (fun r => otro_tipo (dict_get r "fechaIngreso") = true) l)
  /\ (Z.of_nat (length l) < 2 ^ 53 -> Forall fecha_admisible l ->
      exists est, calcular_en l = Ok est).
Proof.
  assert (Hraise : Z.of_nat (length l) < 2 ^ 53 ->
    forall e, calcular_en l = Raise e ->
    e = TypeError /\ Exists (fun r => otro_tipo (dict_get r "fechaIngreso") = true) l).
  { intros Hlen e He. unfold calcular_estadisticas_pacientes in He.
    destruct (bucle float_of_str fecha_inicio fecha_fin campo_metrica ∅ l) as [res | e'] eqn:Hb;
      cbn in He.
    - exfalso. pose proof (preparar_spec campo_metrica res) as Hp. rewrite He in Hp.
      destruct Hp as (k & d & Hk & Hd).
      rewrite (bucle_lookup _ _ _ _ _ _ k Hb) in Hk.
      pose proof (length_filter
                    (fun r => categoria_contada fecha_inicio fecha_fin r = Some k) l) as Hle.
      unfold registros_de in Hk.
      destruct (filter _ l) as [| r rs]; [discriminate|]. injection Hk as <-.
      rewrite resumir_pos, Hcampo in Hd by (cbn [count length]; lia).
      cbn [count length] in Hd.
      destruct (int_to_float_small (Z.of_nat (S (length rs)))) as [y Hy];
        [cbn [length] in Hle; lia|].
      rewrite Hy in Hd. discriminate.
    - injection He as ->.
      apply bucle_raise_record in Hb as (r & res' & Hin & Hr).
      apply procesar_raise_why in Hr as [[-> Hot] | (_ & _ & Hno)].
      + split; [done|]. apply Exists_exists. eauto.
      + exfalso. apply Hno. rewrite Forall_forall in Habsent.
        exact (sin_desborde_absent r m Hcampo (Habsent r Hin)). }
  split; [|split; [exact Hraise|]].
  - intros est k e Hest He. unfold calcular_estadisticas_pacientes in Hest.
    destruct (bucle float_of_str fecha_inicio fecha_fin campo_metrica ∅ l) as [res | ex] eqn:Hb;
      cbn in Hest; [|discriminate].
    pose proof (preparar_spec campo_metrica res) as Hp. rewrite Hest in Hp.
    specialize (Hp k). rewrite (bucle_lookup _ _ _ _ _ _ k Hb), He in Hp.
    destruct (registros_de fecha_inicio fecha_fin k l) as [| r rs] eqn:Hrs; [discriminate|].
    destruct Hp as (e' & Hres & [= <-]).
    assert (Hnone : omap (contribucion float_of_str campo_metrica) (r :: rs) = []).
    { apply omap_none. rewrite <- Hrs. unfold registros_de.
      rewrite Forall_forall in Habsent. apply Forall_forall. intros x Hx.
      apply list_elem_of_filter in Hx as [_ Hx].
      unfold contribucion. by rewrite Hcampo, (Habsent x Hx). }
    rewrite resumir_pos, Hcampo in Hres by (cbn [count length]; lia).
    cbn [count sum_metric] in Hres. unfold suma_metrica in Hres. rewrite Hnone in Hres.
    destruct (int_to_float (Z.of_nat (length (r :: rs)))) as [n | ex] eqn:Hn;
      cbn in Hres; [|discriminate].
    injection Hres as <-. cbn [promedio foldl]. f_equal.
    eapply div_zero_pos; [|exact Hn]. cbn [length]. lia.
  - intros Hlen Hall.
    destruct (calcular_en l) as [est | e] eqn:Hc; [eauto|]. exfalso.
    destruct (Hraise Hlen e eq_refl) as [_ Hex].
    apply Exists_exists in Hex as (r & Hr & Hot).
    rewrite Forall_forall in Hall. specialize (Hall r Hr). unfold fecha_admisible in Hall.
    congruence.
Qed.

End AbsentMetric.

Section AverageFacts.

Variable float_of_str : string -> option spec_float.
Variables fecha_inicio fecha_fin : date.
Variable campo_metrica : option string.

Local Abbreviation calcular_en := (fun registros =>
  calcular_estadisticas_pacientes float_of_str registros fecha_inicio fecha_fin campo_metrica).

(** The entry of a category, read off its counted records. *)
Lemma entrada_de_registros (l : list (gmap string value)) (est : gmap value estadistica)
    (k : value) :
  calcular_en l = Ok est ->
  match registros_de fecha_inicio fecha_fin k l with
  | [] => est !! k = None
  | rs =>
      exists e,
        est !! k = Some e
        /\ resumir campo_metrica
             (mk_acumulador (Z.of_nat (length rs))
                (suma_metrica float_of_str campo_metrica rs)) = Ok e
  end.
Proof.
  unfold calcular_estadisticas_pacientes.
  destruct (bucle float_of_str fecha_inicio fecha_fin campo_metrica ∅ l) as [res | ex] eqn:Hb;
    cbn; [|discriminate].
  intros Hest. pose proof (preparar_spec campo_metrica res) as Hp. rewrite Hest in Hp.
  specialize (Hp k). rewrite (bucle_lookup _ _ _ _ _ _ k Hb) in Hp.
  destruct (registros_de fecha_inicio fecha_fin k l); [exact Hp|].
  destruct Hp as (e & He & Hk). eauto.
Qed.

(** X15. Categories do not interfere: the entry of a category depends on
    the records counted under it alone, so two inputs with the same such
    records, in the same order, give it the same count and average. *)
Theorem categories_do_not_interfere
    (l l' : list (gmap string value)) (est est' : gmap value estadistica) (k : value)
    (Hsame : registros_de fecha_inicio fecha_fin k l
             = registros_de fecha_inicio fecha_fin k l')
    (Hest : calcular_en l = Ok est)
    (Hest' : calcular_en l' = Ok est') :
  est !! k = est' !! k.
Proof.
  pose proof (entrada_de_registros l est k Hest) as H.
  pose proof (entrada_de_registros l' est' k Hest') as H'.
  rewrite <- Hsame in H'.
  destruct (registros_de fecha_inicio fecha_fin k l); [congruence|].
  destruct H as (e & -> & He), H' as (e' & -> & He'). congruence.
Qed.

Lemma foldl_add_from_nan (l : list spec_float) : foldl F64.add S754_nan l = S754_nan.
Proof. induction l as [| x l IH]; [reflexivity|]. cbn [foldl]. exact IH. Qed.

Lemma foldl_add_nan (l : list spec_float) :
  S754_nan ∈ l -> forall a, foldl F64.add a l = S754_nan.
Proof.
  induction l as [| x l IH]; intros Hin a; [by apply elem_of_nil in Hin|].
  cbn [foldl]. apply elem_of_cons in Hin as [<- | Hin]; [|by apply IH].
  replace (F64.add a S754_nan) with S754_nan by (by destruct a).
  apply foldl_add_from_nan.
Qed.

(** X16. One NaN poisons the average: when a record counted under a
    category contributes a NaN as its metric, the average of the category
    is NaN. *)
Theorem nan_poisons_average
    (l : list (gmap string value)) (est : gmap value estadistica)
    (k : value) (e : estadistica) (r : gmap string value)
    (Hest : calcular_en l = Ok est)
    (He : est !! k = Some e)
    (Hr : r ∈ l)
    (Hk : categoria_contada fecha_inicio fecha_fin r = Some k)
    (Hnan : contribucion float_of_str campo_metrica r = Some S754_nan) :
  promedio e = Some S754_nan.
Proof.
  pose proof (entrada_de_registros l est k Hest) as H.
  assert (Hin : r ∈ registros_de fecha_inicio fecha_fin k l)
    by (apply list_elem_of_filter; auto).
  assert (Hm : is_Some (campo_solicitado campo_metrica)).
  { unfold contribucion in Hnan. destruct (campo_solicitado campo_metrica); [eauto | done]. }
  assert (Hsum : suma_metrica float_of_str campo_metrica
                   (registros_de fecha_inicio fecha_fin k l) = S754_nan).
  { unfold suma_metrica. apply foldl_add_nan. apply list_elem_of_omap. eauto. }
  destruct (registros_de fecha_inicio fecha_fin k l) as [| r0 rs] eqn:Hrs;
    [by apply elem_of_nil in Hin|].
  destruct H as (e' & He' & Hres). assert (e' = e) as -> by congruence.
  rewrite resumir_pos in Hres by (cbn [count length]; lia).
  destruct Hm as [m Hm]. rewrite Hm in Hres. cbn [count sum_metric] in Hres.
  rewrite Hsum in Hres.
  destruct (int_to_float (Z.of_nat (length (r0 :: rs)))); cbn in Hres; [|discriminate].
  by injection Hres as <-.
Qed.

End AverageFacts.

(** ** The further properties on concrete inputs *)

Lemma empty_result_iff_nothing_counted_witness :
  calcular_estadisticas_pacientes float_of_digits
    [registro_fecha_mala; registro_sin_tipo; registro_despues; registro_sin_fecha]
    (fst enero_2025) (snd enero_2025) (Some metrica) = Ok ∅.
Proof.
  apply (empty_result_iff_nothing_counted float_of_digits).
  repeat constructor; vm_compute; reflexivity.
Defined.

Lemma emitted_iff_counted_witness :
  cuenta estadisticas_AB (VStr "A")
  = Z.of_nat (length (registros_de (fst enero_2025) (snd enero_2025) (VStr "A") registros_AB))
  /\ cuenta estadisticas_AB (VStr "A") = 2.
Proof.
  split; [|reflexivity].
  apply (emitted_iff_counted float_of_digits registros_AB (fst enero_2025) (snd enero_2025)
           (Some metrica) estadisticas_AB (VStr "A")).
  evaluate.
Defined.

Lemma counts_independent_of_metric_witness :
  cantidad <$> estadisticas_AB
  = cantidad <$> ({[ VStr "A" := mk_estadistica 2 None; VStr "B" := mk_estadistica 1 None ]}
                  : gmap value estadistica).
Proof.
  apply (counts_independent_of_metric float_of_digits registros_AB
           (fst enero_2025) (snd enero_2025) (Some metrica) None); evaluate.
Defined.

Lemma counts_of_chunks_add_up_witness :
  cuenta ({[ VStr "A" := mk_estadistica 3 None; VStr "B" := mk_estadistica 1 None ]}
          : gmap value estadistica) (VStr "A")
  = cuenta ({[ VStr "A" := mk_estadistica 2 None; VStr "B" := mk_estadistica 1 None ]}
            : gmap value estadistica) (VStr "A")
    + cuenta ({[ VStr "A" := mk_estadistica 1 None ]} : gmap value estadistica) (VStr "A").
Proof.
  apply (counts_of_chunks_add_up float_of_digits registros_AB [registro_fecha_cadena]
           (fst enero_2025) (snd enero_2025) None); evaluate.
Defined.

Lemma wider_range_counts_more_witness :
  cuenta ({[ VStr "VIH" := mk_estadistica 2 None; VStr "HCV" := mk_estadistica 1 None;
             VStr "HBV" := mk_estadistica 1 None ]} : gmap value estadistica) (VStr "HCV")
  <= cuenta ({[ VStr "VIH" := mk_estadistica 2 None; VStr "HCV" := mk_estadistica 2 None;
                VStr "HBV" := mk_estadistica 1 None ]} : gmap value estadistica) (VStr "HCV").
Proof.
  apply (wider_range_counts_more float_of_digits datos_pacientes
           (fst uso_2025) (snd uso_2025) (fst febrero_2025) (snd febrero_2025) None);
    first [evaluate | vm_compute; reflexivity].
Defined.

Lemma inverted_range_counts_nothing_witness :
  calcular_estadisticas_pacientes float_of_digits registros_AB
    (fst intervalo_invertido) (snd intervalo_invertido) (Some metrica) = Ok ∅
  \/ calcular_estadisticas_pacientes float_of_digits registros_AB
       (fst intervalo_invertido) (snd intervalo_invertido) (Some metrica) = Raise TypeError.
Proof.
  apply (inverted_range_counts_nothing float_of_digits). vm_compute. reflexivity.
Defined.

Lemma skipped_records_leave_no_trace_witness :
  calcular_estadisticas_pacientes float_of_digits
    (contados (fst uso_2025) (snd uso_2025) datos_pacientes)
    (fst uso_2025) (snd uso_2025) (Some metrica)
  = Ok {[ VStr "VIH" := mk_estadistica 2 (Some f64_5_5);
          VStr "HCV" := mk_estadistica 1 (Some f64_3_0);
          VStr "HBV" := mk_estadistica 1 (Some f64_4_0) ]}.
Proof.
  apply (skipped_records_leave_no_trace float_of_digits). evaluate.
Defined.

Lemma other_fields_are_ignored_witness :
  calcular_estadisticas_pacientes float_of_digits
    [<["ID" := VInt 7]> registro_fecha_cadena] (fst enero_2025) (snd enero_2025) (Some metrica)
  = calcular_estadisticas_pacientes float_of_digits
      [registro_fecha_cadena] (fst enero_2025) (snd enero_2025) (Some metrica).
Proof.
  apply (other_fields_are_ignored float_of_digits (fst enero_2025) (snd enero_2025)
           (Some metrica) registro_fecha_cadena "ID" (VInt 7) [] []);
    vm_compute; discriminate.
Defined.

Lemma absent_metric_averages_zero_witness :
  promedio (mk_estadistica 2 (Some F64.zero)) = Some F64.zero
  /\ (exists est,
        calcular_estadisticas_pacientes float_of_digits registros_AB
          (fst enero_2025) (snd enero_2025) (Some "peso") = Ok est)
  /\ Exists (fun r => otro_tipo (dict_get r "fechaIngreso") = true)
       [registro_fecha_cadena; registro_fecha_entera].
Proof.
  destruct (absent_metric_averages_zero float_of_digits (fst enero_2025) (snd enero_2025)
              (Some "peso") registros_AB "peso" ltac:(vm_compute; reflexivity)
              ltac:(repeat (apply List.Forall_cons; [vm_compute; reflexivity|]);
                    apply List.Forall_nil))
    as (Hzero & _ & Hret).
  split; [|split].
  - apply (Hzero {[ VStr "A" := mk_estadistica 2 (Some F64.zero);
                    VStr "B" := mk_estadistica 1 (Some F64.zero) ]} (VStr "A")); evaluate.
  - apply Hret; [vm_compute; reflexivity|].
    repeat (apply List.Forall_cons; [vm_compute; reflexivity|]). apply List.Forall_nil.
  - destruct (absent_metric_averages_zero float_of_digits (fst enero_2025) (snd enero_2025)
                (Some "peso") [registro_fecha_cadena; registro_fecha_entera] "peso"
                ltac:(vm_compute; reflexivity)
                ltac:(repeat (apply List.Forall_cons; [vm_compute; reflexivity|]);
                      apply List.Forall_nil))
      as (_ & Hraise & _).
    apply (Hraise ltac:(vm_compute; reflexivity) TypeError). evaluate.
Defined.

Lemma total_is_number_counted_witness :
  total ({[ VStr "VIH" := mk_estadistica 2 (Some f64_5_5);
            VStr "HCV" := mk_estadistica 1 (Some f64_3_0);
            VStr "HBV" := mk_estadistica 1 (Some f64_4_0) ]} : gmap value estadistica)
  = Z.of_nat (length (contados (fst uso_2025) (snd uso_2025) datos_pacientes)).
Proof.
  apply (total_is_number_counted float_of_digits (fst uso_2025) (snd uso_2025)
           (Some metrica) datos_pacientes).
  evaluate.
Defined.

Lemma only_type_and_overflow_errors_escape_witness :
  (TypeError = TypeError
   /\ Exists (fun r => otro_tipo (dict_get r "fechaIngreso") = true)
        [registro_fecha_cadena; registro_fecha_entera])
  \/ (TypeError = OverflowError /\ is_Some (campo_solicitado (Some metrica))).
Proof.
  apply (only_type_and_overflow_errors_escape float_of_digits
           (fst enero_2025) (snd enero_2025) (Some metrica)
           [registro_fecha_cadena; registro_fecha_entera] TypeError).
  evaluate.
Defined.

Lemma without_metric_only_dates_can_fail_witness :
  calcular_estadisticas_pacientes float_of_digits [registro_fecha_cadena; registro_fecha_entera]
    (fst enero_2025) (snd enero_2025) None = Raise TypeError
  /\ exists est,
       calcular_estadisticas_pacientes float_of_digits registros_AB
         (fst enero_2025) (snd enero_2025) None = Ok est
       /\ est !! VStr "A" = Some (mk_estadistica 2 None).
Proof.
  split.
  - apply (without_metric_only_dates_can_fail float_of_digits
             (fst enero_2025) (snd enero_2025) None _ eq_refl).
    apply Exists_cons_tl, Exists_cons_hd. vm_compute. reflexivity.
  - destruct (without_metric_only_dates_can_fail float_of_digits
                (fst enero_2025) (snd enero_2025) None registros_AB eq_refl) as [_ H].
    destruct H as (est & Hest & Hk); [repeat constructor; vm_compute; reflexivity|].
    exists est. split; [exact Hest|]. rewrite Hk. vm_compute. reflexivity.
Defined.

Lemma first_raising_record_decides_witness :
  calcular_estadisticas_pacientes float_of_digits
    (registros_AB ++ registro_metrica_enorme :: [registro_fecha_entera])
    (fst enero_2025) (snd enero_2025) (Some metrica) = Raise OverflowError.
Proof.
  apply (first_raising_record_decides float_of_digits (fst enero_2025) (snd enero_2025)
           (Some metrica) registros_AB [registro_fecha_entera] registro_metrica_enorme
           estadisticas_AB OverflowError); evaluate.
Defined.

Lemma clean_types_never_raise_witness :
  exists est,
    calcular_estadisticas_pacientes float_of_digits
      [registro_fecha_mala; registro_NA; registro_sin_tipo; registro_fecha_cadena]
      (fst enero_2025) (snd enero_2025) (Some metrica) = Ok est.
Proof.
  apply (clean_types_never_raise float_of_digits (fst enero_2025) (snd enero_2025)
           (Some metrica)).
  - vm_compute. reflexivity.
  - repeat (apply List.Forall_cons; [split; [vm_compute; reflexivity | sin_desborde_concreto]|]).
    apply List.Forall_nil.
Defined.

Lemma categories_do_not_interfere_witness :
  estadisticas_AB !! VStr "B"
  = ({[ VStr "B" := mk_estadistica 1 (Some f64_9_0);
        VStr "C" := mk_estadistica 2 (Some f64_5_5) ]} : gmap value estadistica) !! VStr "B".
Proof.
  apply (categories_do_not_interfere float_of_digits (fst enero_2025) (snd enero_2025)
           (Some metrica) registros_AB
           [ <["tipoEnfermedad" := VStr "C"]> (registro_con 11);
             list_to_map [("fechaIngreso", VDate (Fecha.mkdate 2025 1 12));
                          ("tipoEnfermedad", VStr "B"); ("tiempoHospitalizacion", VInt 9)];
             <["tipoEnfermedad" := VStr "C"]> (registro_con 0) ]);
    evaluate.
Defined.

Lemma nan_poisons_average_witness :
  promedio (mk_estadistica 2 (Some S754_nan)) = Some S754_nan.
Proof.
  apply (nan_poisons_average float_of_digits (fst enero_2025) (snd enero_2025) (Some metrica)
           [registro_fecha_cadena; registro_nan]
           {[ VStr "A" := mk_estadistica 2 (Some S754_nan) ]} (VStr "A")
           (mk_estadistica 2 (Some S754_nan)) registro_nan);
    first [evaluate | apply list_elem_of_In; right; left; reflexivity | vm_compute; reflexivity].
Defined.
